(** * ical_toronto_waste: pickup schedules to CSV and iCalendar

    A shallow embedding of [ical_toronto_waste.py] and the properties of
    its parser, aggregator and two serializers.

    Conventions of the embedding.
    - A Python [str] is a [string] holding its UTF-8 bytes.  Concatenation,
      [join], equality and the code-point order used by [sorted] are the
      same on both sides of that encoding.
    - An exception is a value of [PyError]; a computation that may raise
      returns [PyError + A], [inl] being the raise.
    - The process environment (the [schedules/] directory, the wall clock,
      standard output and the files written) is the record [World],
      threaded by the monad [IO]. *)

From Stdlib Require Import String Ascii List ZArith Lia Bool.
From Stdlib Require Import Sorting.Sorted Sorting.Permutation.
Import ListNotations.

Local Open Scope list_scope.
Local Open Scope string_scope.
Local Open Scope Z_scope.

(** ** Strings *)

Definition CR : ascii := ascii_of_nat 13.
Definition LF : ascii := ascii_of_nat 10.
(** The two characters written ['\r\n'] in the source. *)
Definition CRLF : string := String CR (String LF "").

(** [sep.join(parts)] *)
Fixpoint join (sep : string) (parts : list string) : string :=
  match parts with
  | [] => ""
  | [p] => p
  | p :: rest => p ++ sep ++ join sep rest
  end.

(** ['{} {}'.format(a, b)] *)
Definition format_pair (a b : string) : string := a ++ " " ++ b.

Definition ascii_code (c : ascii) : Z := Z.of_N (N_of_ascii c).

(** Value of an ASCII decimal digit. *)
Definition ascii_digit (c : ascii) : option Z :=
  let n := ascii_code c in
  if (48 <=? n) && (n <=? 57) then Some (n - 48) else None.

Definition digit_char (d : Z) : ascii := ascii_of_N (Z.to_N (48 + d)).

(** [n] in decimal on exactly [width] digits, zero filled: the C conversion
    [%0<width>d] for [0 <= n < 10 ^ width], which is the range of every
    field of a [datetime] ([year <= 9999], the others below 100). *)
Fixpoint zero_pad (width : nat) (n : Z) : string :=
  match width with
  | O => ""
  | S w => zero_pad w (n / 10) ++ String (digit_char (n mod 10)) ""
  end.

(** [n] in plain decimal, as the C conversion [%d] writes it, for
    [0 <= n <= 9999], the range of the year of a [datetime]. *)
Definition decimal (n : Z) : string :=
  if n <? 10 then zero_pad 1 n
  else if n <? 100 then zero_pad 2 n
  else if n <? 1000 then zero_pad 3 n
  else zero_pad 4 n.

(** ** Exceptions *)

Inductive PyError : Type :=
| ValueError (msg : string)
| StopIteration
| FileNotFoundError (path : string).

(** ** [datetime] *)

Record datetime : Type := mk_datetime {
  year : Z; month : Z; day_of_month : Z;
  hour : Z; minute : Z; second : Z
}.

Definition is_leap (y : Z) : bool :=
  (y mod 4 =? 0) && (negb (y mod 100 =? 0) || (y mod 400 =? 0)).

Definition days_in_month (y m : Z) : Z :=
  if m =? 2 then (if is_leap y then 29 else 28)
  else if (m =? 4) || (m =? 6) || (m =? 9) || (m =? 11) then 30
  else 31.

(** The range checks of the [datetime] constructor ([MINYEAR = 1],
    [MAXYEAR = 9999]). *)
Definition valid_date (y m d : Z) : bool :=
  (1 <=? y) && (y <=? 9999) && (1 <=? m) && (m <=? 12) &&
  (1 <=? d) && (d <=? days_in_month y m).

Definition valid_datetime (t : datetime) : bool :=
  valid_date (year t) (month t) (day_of_month t) &&
  (0 <=? hour t) && (hour t <=? 23) &&
  (0 <=? minute t) && (minute t <=? 59) &&
  (0 <=? second t) && (second t <=? 59).

(** *** [strftime]

    The directives this program's formats use, as the C library under the
    interpreter writes them: [%Y] is the year in plain decimal, so a year
    before 1000 comes without leading zeros ([202] for the year 202); the
    other fields are zero filled on two digits.  Any other directive is
    copied unchanged. *)
Definition strftime_directive (t : datetime) (c : ascii) : string :=
  if Ascii.eqb c "Y" then decimal (year t)
  else if Ascii.eqb c "y" then zero_pad 2 (year t mod 100)
  else if Ascii.eqb c "m" then zero_pad 2 (month t)
  else if Ascii.eqb c "d" then zero_pad 2 (day_of_month t)
  else if Ascii.eqb c "H" then zero_pad 2 (hour t)
  else if Ascii.eqb c "M" then zero_pad 2 (minute t)
  else if Ascii.eqb c "S" then zero_pad 2 (second t)
  else if Ascii.eqb c "%" then "%"
  else String "%" (String c "").

Fixpoint strftime (t : datetime) (fmt : string) : string :=
  match fmt with
  | "" => ""
  | String c rest =>
      if Ascii.eqb c "%" then
        match rest with
        | "" => "%"
        | String k rest' => strftime_directive t k ++ strftime t rest'
        end
      else String c (strftime t rest)
  end.

(** *** [strptime]

    [datetime.strptime] turns the format into a regular expression, matches
    it at the start of the input with the backtracking engine of [re],
    refuses input left over, converts each named group with [int] and
    builds the date, whose constructor checks the ranges.  Every failure is
    a [ValueError].

    The pattern language below is the one those regular expressions need: a
    group is an ordered choice between sequences of character classes. *)

Inductive cclass : Type :=
| CLit (c : ascii)            (* the character itself *)
| CRange (lo hi : ascii)      (* [lo-hi] *)
| CDigit.                     (* \d *)

Inductive re_item : Type :=
| ReLit (c : ascii)
| ReGroup (name : ascii) (alts : list (list cclass)).

(** The patterns of [_strptime.TimeRE] for the directives of
    [INPUT_DATE_FORMATS]:
    [%d] is [3[0-1]|[1-2]\d|0[1-9]|[1-9]| [1-9]],
    [%m] is [1[0-2]|0[1-9]|[1-9]], [%Y] is [\d\d\d\d]. *)
Definition directive_regex (c : ascii) : option (list (list cclass)) :=
  if Ascii.eqb c "d" then
    Some [ [CLit "3"; CRange "0" "1"]; [CRange "1" "2"; CDigit];
           [CLit "0"; CRange "1" "9"]; [CRange "1" "9"];
           [CLit " "; CRange "1" "9"] ]
  else if Ascii.eqb c "m" then
    Some [ [CLit "1"; CRange "0" "2"]; [CLit "0"; CRange "1" "9"];
           [CRange "1" "9"] ]
  else if Ascii.eqb c "Y" then
    Some [ [CDigit; CDigit; CDigit; CDigit] ]
  else None.

(** Format to pattern.  [None] is the [ValueError] for a bad or stray
    directive; directives that this program never uses are refused too.
    Any other character stands for itself: the formats of this program
    hold no blank (which would match any run of blanks), no character
    special to [re] and no letter outside a directive (which would match
    in either case). *)
Fixpoint compile_format (fmt : string) : option (list re_item) :=
  match fmt with
  | "" => Some []
  | String c rest =>
      if Ascii.eqb c "%" then
        match rest with
        | "" => None
        | String k rest' =>
            match directive_regex k, compile_format rest' with
            | Some alts, Some items => Some (ReGroup k alts :: items)
            | _, _ => None
            end
        end
      else option_map (cons (ReLit c)) (compile_format rest)
  end.

Section Strptime.

(** In a [str] pattern [\d] matches every Unicode decimal digit, and
    [int] converts them.  The table of the non-ASCII ones belongs to the
    interpreter, not to this program: [unicode_digit s] decodes such a
    digit at the head of [s], giving its value and what follows it.  It
    is consulted only where [s] starts with a byte above 127, the first
    byte of every non-ASCII character. *)
Variable unicode_digit : string -> option (Z * string).

(** One class against the head of the input: the digits matched (none
    for a blank) and the rest of the input. *)
Definition match_class (k : cclass) (s : string) : option (list Z * string) :=
  match s with
  | "" => None
  | String a rest =>
      match k with
      | CLit c =>
          if Ascii.eqb a c then
            Some (match ascii_digit a with Some v => [v] | None => [] end, rest)
          else None
      | CRange lo hi =>
          if (ascii_code lo <=? ascii_code a) && (ascii_code a <=? ascii_code hi)
          then Some (match ascii_digit a with Some v => [v] | None => [] end, rest)
          else None
      | CDigit =>
          match ascii_digit a with
          | Some v => Some ([v], rest)
          | None =>
              if ascii_code a <? 128 then None
              else match unicode_digit s with
                   | Some (v, rest') => Some ([v], rest')
                   | None => None
                   end
          end
      end
  end.

Fixpoint match_seq (ks : list cclass) (s : string) : option (list Z * string) :=
  match ks with
  | [] => Some ([], s)
  | k :: ks' =>
      match match_class k s with
      | None => None
      | Some (ds, rest) =>
          match match_seq ks' rest with
          | None => None
          | Some (ds', rest') => Some ((ds ++ ds')%list, rest')
          end
      end
  end.

(** The first alternative, in the order written, for which [k] succeeds. *)
Fixpoint first_some {A B : Type} (k : A -> option B) (l : list A) : option B :=
  match l with
  | [] => None
  | a :: l' => match k a with Some b => Some b | None => first_some k l' end
  end.

(** [int] of a group's text: its digits read in base ten (a leading
    blank is skipped by [int]). *)
Definition int_of_digits (ds : list Z) : Z :=
  fold_left (fun acc d => 10 * acc + d) ds 0.

(** [re.match]: the groups found, by directive, and the unmatched rest.
    An alternative is kept only if the remainder of the pattern matches
    after it; otherwise the next one is tried. *)
Fixpoint re_match (items : list re_item) (s : string)
  : option (list (ascii * Z) * string) :=
  match items with
  | [] => Some ([], s)
  | ReLit c :: items' =>
      match s with
      | "" => None
      | String a rest => if Ascii.eqb a c then re_match items' rest else None
      end
  | ReGroup name alts :: items' =>
      first_some
        (fun alt =>
           match match_seq alt s with
           | None => None
           | Some (ds, rest) =>
               match re_match items' rest with
               | None => None
               | Some (found, rest') =>
                   Some ((name, int_of_digits ds) :: found, rest')
               end
           end)
        alts
  end.

Fixpoint found_get (found : list (ascii * Z)) (name : ascii) (default : Z) : Z :=
  match found with
  | [] => default
  | (n, v) :: found' => if Ascii.eqb n name then v else found_get found' name default
  end.

(** [datetime.strptime(data_string, format)].  The texts of the errors
    are abridged; [parse_date] discards them. *)
Definition strptime (data_string format : string) : PyError + datetime :=
  match compile_format format with
  | None => inl (ValueError ("bad directive in format " ++ format))
  | Some items =>
      match re_match items data_string with
      | None =>
          inl (ValueError ("time data " ++ data_string ++
                           " does not match format " ++ format))
      | Some (found, rest) =>
          if negb (String.eqb rest "") then
            inl (ValueError ("unconverted data remains: " ++ rest))
          else
            let y := found_get found "Y" 1900 in
            let m := found_get found "m" 1 in
            let d := found_get found "d" 1 in
            if valid_date y m d then inr (mk_datetime y m d 0 0 0)
            else inl (ValueError "day is out of range for month")
      end
  end.

(** ** The program: constants *)

Definition INPUT_DATE_FORMATS : list string := ["%d-%m-%Y"; "%Y-%m-%d"].
Definition CSV_DATE_FORMAT : string := "%m-%d-%y".
Definition ICS_DATE_FORMAT : string := "%Y%m%d".
Definition ICS_DATETIME_FORMAT : string := "%Y%m%dT%H%M%S".

(** ** [parse_date] *)

(** The [for] loop of [parse_date] over the formats left to try.
    [except ValueError: continue] catches that exception only. *)
Fixpoint parse_date_from (formats : list string) (date_str : string)
  : PyError + datetime :=
  match formats with
  | [] =>
      inl (ValueError ("Date " ++ date_str ++ " does not match any known format."))
  | date_format :: formats' =>
      match strptime date_str date_format with
      | inr t => inr t
      | inl (ValueError _) => parse_date_from formats' date_str
      | inl e => inl e
      end
  end.

Definition parse_date (date_str : string) : PyError + datetime :=
  parse_date_from INPUT_DATE_FORMATS date_str.

(** ** [Pickup] *)

Definition SUBJECT_GARBAGE : string := "Garbage Day".
Definition EMOJI_GARBAGE : string := "🗑".
Definition SUBJECT_RECYCLING : string := "Recycling Day".
Definition EMOJI_RECYCLING : string := "♻️".
Definition SUBJECT_YARD_WASTE : string := "Yard Waste".
Definition EMOJI_YARD_WASTE : string := "🍂".
Definition SUBJECT_CHRISTMAS_TREE : string := "Christmas Tree".
Definition EMOJI_CHRISTMAS_TREE : string := "🎄".

Definition URL_GARBAGE : string :=
  "https://www.toronto.ca/services-payments/recycling-organics-garbage/" ++
  "houses/what-goes-in-my-green-bin/".
Definition URL_RECYCLING : string :=
  "https://www.toronto.ca/services-payments/recycling-organics-garbage/waste-wizard/".

Record Pickup : Type := mk_Pickup {
  calendar : string;
  day : datetime;
  green_bin : bool;
  garbage : bool;
  recycling : bool;
  yard_waste : bool;
  christmas_tree : bool
}.

(** [a != b] on [str] *)
Definition str_ne (a b : string) : bool := negb (String.eqb a b).

(** Unpacking a sequence of the wrong length into eight targets. *)
Definition unpack_error (n : nat) : PyError :=
  if Nat.ltb n 8 then
    ValueError ("not enough values to unpack (expected 8, got " ++
                zero_pad 1 (Z.of_nat n) ++ ")")
  else ValueError "too many values to unpack (expected 8)".

(** [Pickup.__init__]: the row is unpacked into eight names, then the
    date is parsed, then the flags are compared with ['0']. *)
Definition Pickup_init (row : list string) : PyError + Pickup :=
  match row with
  | [_; calendar; day; green_bin; garbage; recycling; yard_waste; christmas_tree] =>
      match parse_date day with
      | inl e => inl e
      | inr day =>
          inr {| calendar := calendar;
                 day := day;
                 green_bin := str_ne green_bin "0";
                 garbage := str_ne garbage "0";
                 recycling := str_ne recycling "0";
                 yard_waste := str_ne yard_waste "0";
                 christmas_tree := str_ne christmas_tree "0" |}
      end
  | _ => inl (unpack_error (List.length row))
  end.

End Strptime.

(** [list.append] under a condition, for the two lists [subject] fills
    side by side. *)
Definition append_if (b : bool) (x : string) (l : list string) : list string :=
  if b then (l ++ [x])%list else l.

(** The property [Pickup.subject]. *)
Definition subject (self : Pickup) : string :=
  let emoji := [] in
  let types := [] in
  let emoji := append_if (christmas_tree self) EMOJI_CHRISTMAS_TREE emoji in
  let types := append_if (christmas_tree self) SUBJECT_CHRISTMAS_TREE types in
  let emoji := append_if (yard_waste self) EMOJI_YARD_WASTE emoji in
  let types := append_if (yard_waste self) SUBJECT_YARD_WASTE types in
  let emoji := append_if (recycling self) EMOJI_RECYCLING emoji in
  let types := append_if (recycling self) SUBJECT_RECYCLING types in
  let emoji := append_if (garbage self) EMOJI_GARBAGE emoji in
  let types := append_if (garbage self) SUBJECT_GARBAGE types in
  format_pair (join "" emoji) (join "/" types).

(** The property [Pickup.description]. *)
Definition description (self : Pickup) : string :=
  let types := [] in
  let types := append_if (christmas_tree self) "Christmas Tree" types in
  let types := append_if (garbage self) "Garbage" types in
  let types := append_if (recycling self) "Recycling" types in
  let types := append_if (green_bin self) "Green Bin" types in
  let types := append_if (yard_waste self) "Yard Waste" types in
  join "/" types.

(** The property [Pickup.url]. *)
Definition url (self : Pickup) : string :=
  if recycling self then URL_RECYCLING else URL_GARBAGE.

(** ** The environment *)

(** What the process does to its surroundings, in the order it does it. *)
Inductive Event : Type :=
| Log (line : string)                  (* a line on standard output *)
| Glob (pattern : string)              (* a directory scan *)
| OpenRead (path : string)
| Now                                  (* a reading of the wall clock *)
| OpenWrite (path : string)            (* [open(path, 'w')]: created or emptied *)
| Write (path : string) (text : string).

Record World : Type := mk_World {
  (** the regular files below the working directory, by relative path, in
      the order a directory scan meets them, each with the rows that
      [csv.reader] yields from it *)
  input_files : list (string * list (list string));
  (** the wall clock after as many effects *)
  wall_clock : nat -> datetime;
  trace : list Event
}.

Definition record (ev : Event) (w : World) : World :=
  {| input_files := input_files w;
     wall_clock := wall_clock w;
     trace := (trace w ++ [ev])%list |}.

(** A computation reads and extends the world and returns or raises. *)
Definition IO (A : Type) : Type := World -> (PyError + A) * World.

Definition ret {A : Type} (a : A) : IO A := fun w => (inr a, w).

Definition bind {A B : Type} (m : IO A) (k : A -> IO B) : IO B :=
  fun w => match m w with
           | (inl e, w') => (inl e, w')
           | (inr a, w') => k a w'
           end.

(** A pure computation that may raise, run in place. *)
Definition lift {A : Type} (r : PyError + A) : IO A := fun w => (r, w).

Definition emit (ev : Event) : IO unit := fun w => (inr tt, record ev w).

Declare Scope io_scope.
Delimit Scope io_scope with io.
Notation "x <- m ;; k" := (bind m (fun x => k))
  (at level 100, m at next level, right associativity) : io_scope.
Notation "m ;; k" := (bind m (fun _ => k))
  (at level 100, right associativity) : io_scope.
Local Open Scope io_scope.

(** [for x in xs: body] *)
Fixpoint for_each {X : Type} (xs : list X) (body : X -> IO unit) : IO unit :=
  match xs with
  | [] => ret tt
  | x :: xs' => body x ;; for_each xs' body
  end.

(** [for x in xs: body], the body updating a local [s]. *)
Fixpoint for_fold {X S : Type} (xs : list X) (body : X -> S -> IO S) (s : S) : IO S :=
  match xs with
  | [] => ret s
  | x :: xs' => s' <- body x s ;; for_fold xs' body s'
  end.

(** [logging.info], with the format set by [logging.basicConfig]. *)
Definition logging_info (message : string) : IO unit :=
  emit (Log ("[INFO] " ++ message)).

(** [datetime.now()] *)
Definition datetime_now : IO datetime :=
  fun w => (inr (wall_clock w (List.length (trace w))), record Now w).

(** A path against a pattern whose only wildcard is [*], which stops at a
    [/]. *)
Fixpoint glob_match (pattern path : string) : bool :=
  match pattern with
  | "" => match path with "" => true | _ => false end
  | String c pattern' =>
      if Ascii.eqb c "*" then
        (fix star (p : string) : bool :=
           glob_match pattern' p ||
           match p with
           | "" => false
           | String a p' => negb (Ascii.eqb a "/") && star p'
           end) path
      else
        match path with
        | "" => false
        | String a path' => Ascii.eqb a c && glob_match pattern' path'
        end
  end.

(** [glob.glob(pattern)]: the matching paths, in the order of the scan. *)
Definition glob_glob (pattern : string) : IO (list string) :=
  fun w => (inr (filter (glob_match pattern) (map fst (input_files w))),
            record (Glob pattern) w).

Fixpoint find_file (files : list (string * list (list string))) (path : string)
  : option (list (list string)) :=
  match files with
  | [] => None
  | (p, rows) :: files' => if String.eqb p path then Some rows else find_file files' path
  end.

(** [csv.reader(open(file))]: the rows still to be read. *)
Definition open_csv (file : string) : IO (list (list string)) :=
  fun w => match find_file (input_files w) file with
           | Some rows => (inr rows, record (OpenRead file) w)
           | None => (inl (FileNotFoundError file), w)
           end.

(** [lines.__next__()]: the first row is consumed. *)
Definition next_row (lines : list (list string)) : PyError + (list string * list (list string)) :=
  match lines with
  | [] => inl StopIteration
  | row :: lines' => inr (row, lines')
  end.

(** [sorted] on a list of [str]: a stable sort by code point. *)
Fixpoint insert_sorted (x : string) (l : list string) : list string :=
  match l with
  | [] => [x]
  | y :: l' => if String.leb x y then x :: l else y :: insert_sorted x l'
  end.

Definition sorted (l : list string) : list string :=
  fold_right insert_sorted [] l.

(** ** [defaultdict(list)]

    Keys in the order of their first insertion. *)
Definition dict : Type := list (string * list Pickup).

Definition dict_keys (data : dict) : list string := map fst data.

(** [data[key]] on a key that is present. *)
Fixpoint dict_get (data : dict) (key : string) : list Pickup :=
  match data with
  | [] => []
  | (k, v) :: data' => if String.eqb k key then v else dict_get data' key
  end.

(** [data[key].append(pickup)]: a missing key first gets an empty list,
    at the end of the dictionary. *)
Fixpoint dict_append (data : dict) (key : string) (pickup : Pickup) : dict :=
  match data with
  | [] => [(key, [pickup])]
  | (k, v) :: data' =>
      if String.eqb k key then (k, (v ++ [pickup])%list) :: data'
      else (k, v) :: dict_append data' key pickup
  end.

(** ** The pipeline *)

Definition CALENDAR_OUTPUT_DIR : string := "output/".
Definition CSV_OUTPUT_DIR : string := "csv/".
Definition ICS_OUTPUT_DIR : string := "ics/".
Definition CSV_OUT_PATH : string := CALENDAR_OUTPUT_DIR ++ CSV_OUTPUT_DIR.
Definition ICS_OUT_PATH : string := CALENDAR_OUTPUT_DIR ++ ICS_OUTPUT_DIR.
Definition SCHEDULES_FILE_REGEX : string := "schedules/pickup-schedule-*.csv".

Section Pipeline.

Variable unicode_digit : string -> option (Z * string).

(** The inner loop of [process_data]: one row, one [Pickup], appended to
    the group of its calendar. *)
Definition process_row (row : list string) (data : dict) : IO dict :=
  pickup <- lift (Pickup_init unicode_digit row) ;;
  ret (dict_append data (calendar pickup) pickup).

Definition process_file (file : string) (data : dict) : IO dict :=
  logging_info ("Parsing " ++ file) ;;
  lines <- open_csv file ;;
  (* Skip header *)
  r <- lift (next_row lines) ;;
  for_fold (snd r) process_row data.

Definition process_data : IO dict :=
  logging_info "Parsing City of Toronto Open Data" ;;
  let data : dict := [] in
  files <- glob_glob SCHEDULES_FILE_REGEX ;;
  for_fold (sorted files) process_file data.

(** *** [csv.writer]

    The default dialect: fields joined by commas, a field holding a
    comma, a quote or a line break is quoted with its quotes doubled, a
    row made of one empty field is written as two quotes, and the row
    ends with ['\r\n']. *)
Definition QUOTE : ascii := ascii_of_nat 34.

Definition csv_special (c : ascii) : bool :=
  Ascii.eqb c "," || Ascii.eqb c QUOTE || Ascii.eqb c CR || Ascii.eqb c LF.

Fixpoint csv_needs_quotes (s : string) : bool :=
  match s with
  | "" => false
  | String c s' => csv_special c || csv_needs_quotes s'
  end.

Fixpoint csv_double_quotes (s : string) : string :=
  match s with
  | "" => ""
  | String c s' =>
      if Ascii.eqb c QUOTE then String QUOTE (String QUOTE (csv_double_quotes s'))
      else String c (csv_double_quotes s')
  end.

Definition csv_field (s : string) : string :=
  if csv_needs_quotes s
  then String QUOTE (csv_double_quotes s ++ String QUOTE "")
  else s.

Definition csv_row_text (row : list string) : string :=
  match row with
  | [field] =>
      if String.eqb field "" then String QUOTE (String QUOTE CRLF)
      else csv_field field ++ CRLF
  | _ => join "," (map csv_field row) ++ CRLF
  end.

(** [csv_writer.writerow(row)] on the writer of the file at [path]. *)
Definition csv_writerow (path : string) (row : list string) : IO unit :=
  emit (Write path (csv_row_text row)).

(** *** [write_csv] *)

Definition write_csv (data : dict) : IO unit :=
  logging_info "Writing CSV calendars" ;;
  for_each (dict_keys data) (fun calendar =>
    let pickups := dict_get data calendar in
    logging_info ("Writing " ++ calendar ++ " CSV") ;;
    let csv_file := CSV_OUT_PATH ++ calendar ++ ".csv" in
    emit (OpenWrite csv_file) ;;
    csv_writerow csv_file
      ["Subject"; "Start Date"; "All Day Event"; "Description"] ;;
    for_each pickups (fun pickup =>
      let start_date := strftime (day pickup) CSV_DATE_FORMAT in
      csv_writerow csv_file
        [subject pickup; start_date; "TRUE";
         description pickup ++ " - See " ++ url pickup])) ;;
  logging_info "Finished writing CSV calendars".

(** *** [write_ics] *)

(** [ics_file.write(text)] *)
Definition file_write (path text : string) : IO unit := emit (Write path text).

Definition write_ics (data : dict) : IO unit :=
  logging_info "Writing ICS calendars" ;;
  now <- datetime_now ;;
  let ics_generation_time := strftime now ICS_DATETIME_FORMAT in
  for_each (dict_keys data) (fun calendar =>
    let pickups := dict_get data calendar in
    logging_info ("Writing " ++ calendar ++ " ICS") ;;
    let ics_file := ICS_OUT_PATH ++ calendar ++ ".ics" in
    emit (OpenWrite ics_file) ;;
    file_write ics_file ("BEGIN:VCALENDAR" ++ CRLF) ;;
    file_write ics_file ("VERSION:2.0" ++ CRLF) ;;
    file_write ics_file ("CALSCALE:GREGORIAN" ++ CRLF) ;;
    file_write ics_file ("METHOD:PUBLISH" ++ CRLF) ;;
    file_write ics_file
      ("PRODID:https://github.com/mtpettyp/ical_toronto_waste" ++ CRLF) ;;
    file_write ics_file ("X-WR-CALNAME:" ++ calendar ++ " Waste Pickup" ++ CRLF) ;;
    file_write ics_file ("X-WR-TIMEZONE:America/Toronto" ++ CRLF) ;;
    for_each pickups (fun pickup =>
      let start_date := strftime (day pickup) ICS_DATE_FORMAT in
      file_write ics_file ("BEGIN:VEVENT" ++ CRLF) ;;
      file_write ics_file ("URL;VALUE=URI:" ++ url pickup ++ CRLF) ;;
      file_write ics_file ("SUMMARY:" ++ subject pickup ++ CRLF) ;;
      file_write ics_file ("DTSTART;VALUE=DATE:" ++ start_date ++ CRLF) ;;
      file_write ics_file
        ("DTSTAMP;VALUE=DATETIME:" ++ ics_generation_time ++ CRLF) ;;
      file_write ics_file ("UID:" ++ start_date ++ calendar ++ CRLF) ;;
      file_write ics_file ("DESCRIPTION:" ++ description pickup ++ CRLF) ;;
      file_write ics_file ("TRANSP:TRANSPARENT" ++ CRLF) ;;
      file_write ics_file ("END:VEVENT" ++ CRLF)) ;;
    file_write ics_file ("END:VCALENDAR" ++ CRLF)) ;;
  logging_info "Finished writing ICS calendars".

(** *** [main] *)

Definition main : IO unit :=
  data <- process_data ;;
  write_csv data ;;
  write_ics data.

End Pipeline.

(** ** A run on a small tree *)

(** No digit beyond ASCII. *)
Definition ascii_digits_only : string -> option (Z * string) := fun _ => None.

Definition noon : datetime := mk_datetime 2024 1 2 12 30 45.

Definition header_row : list string :=
  ["_id"; "Calendar"; "WeekStarting"; "GreenBin"; "Garbage"; "Recycling";
   "YardWaste"; "ChristmasTree"].

Definition small_world : World :=
  {| input_files :=
       [ ("schedules/pickup-schedule-B.csv",
          [header_row; ["1"; "North"; "2024-01-02"; "0"; "0"; "T"; "0"; "0"]]);
         ("schedules/README.md", []);
         ("schedules/pickup-schedule-A.csv",
          [header_row; ["1"; "North"; "01-06-2024"; "1"; "1"; "0"; "0"; "0"];
                       ["2"; "South"; "08-06-2024"; "1"; "0"; "1"; "Y"; "0"]]) ];
     wall_clock := fun _ => noon;
     trace := [] |}.

(** ** What the specification says, in its own words *)

(** The categories a subject shows, in the order christmas tree, yard
    waste, recycling, garbage: flag, emoji, name. *)
Definition subject_categories : list ((Pickup -> bool) * (string * string)) :=
  [ (christmas_tree, (EMOJI_CHRISTMAS_TREE, "Christmas Tree"));
    (yard_waste, (EMOJI_YARD_WASTE, "Yard Waste"));
    (recycling, (EMOJI_RECYCLING, "Recycling Day"));
    (garbage, (EMOJI_GARBAGE, "Garbage Day")) ].

Definition true_categories {A : Type} (p : Pickup) (cats : list ((Pickup -> bool) * A))
  : list A :=
  map snd (filter (fun c => fst c p) cats).

Definition subject_emojis (p : Pickup) : string :=
  String.concat "" (map fst (true_categories p subject_categories)).

Definition subject_names (p : Pickup) : string :=
  String.concat "/" (map snd (true_categories p subject_categories)).

(** The categories a description shows, in the order christmas tree,
    garbage, recycling, green bin, yard waste. *)
Definition description_categories : list ((Pickup -> bool) * string) :=
  [ (christmas_tree, "Christmas Tree"); (garbage, "Garbage");
    (recycling, "Recycling"); (green_bin, "Green Bin");
    (yard_waste, "Yard Waste") ].

Definition description_names (p : Pickup) : string :=
  String.concat "/" (true_categories p description_categories).

Definition set_green_bin (b : bool) (p : Pickup) : Pickup :=
  {| calendar := calendar p; day := day p; green_bin := b;
     garbage := garbage p; recycling := recycling p;
     yard_waste := yard_waste p; christmas_tree := christmas_tree p |}.

Fixpoint has_char (c : ascii) (s : string) : bool :=
  match s with
  | "" => false
  | String a s' => Ascii.eqb a c || has_char c s'
  end.

Definition starts_with_char (c : ascii) (s : string) : bool :=
  match s with
  | "" => false
  | String a _ => Ascii.eqb a c
  end.

(** ** What the serializers are to write *)

(** The world with [evs] more events. *)
Definition emits (evs : list Event) (w : World) : World :=
  {| input_files := input_files w;
     wall_clock := wall_clock w;
     trace := (trace w ++ evs)%list |}.

(** Month, day and year on two digits each. *)
Definition two_digit_date (t : datetime) : string :=
  zero_pad 2 (month t) ++ "-" ++ zero_pad 2 (day_of_month t) ++ "-" ++
  zero_pad 2 (year t mod 100).

(** The four fields of the row of a pickup. *)
Definition csv_fields (p : Pickup) : list string :=
  [ subject p; two_digit_date (day p); "TRUE";
    description p ++ " - See " ++
    (if recycling p then URL_RECYCLING else URL_GARBAGE) ].

(** One tabular file: the header, then a row per pickup of the group. *)
Definition csv_calendar_events (data : dict) (calendar : string) : list Event :=
  let path := "output/csv/" ++ calendar ++ ".csv" in
  ([ Log ("[INFO] Writing " ++ calendar ++ " CSV");
     OpenWrite path;
     Write path
       (csv_row_text ["Subject"; "Start Date"; "All Day Event"; "Description"]) ] ++
   map (fun p => Write path (csv_row_text (csv_fields p))) (dict_get data calendar))%list.

(** Year, month and day as [%Y%m%d] writes them: the year in plain
    decimal, then month and day on two digits each; eight digits from the
    year 1000 on. *)
Definition compact_date (t : datetime) : string :=
  decimal (year t) ++ zero_pad 2 (month t) ++ zero_pad 2 (day_of_month t).

(** The nine lines of an event. *)
Definition ics_event_lines (stamp calendar : string) (p : Pickup) : list string :=
  [ "BEGIN:VEVENT" ++ CRLF;
    "URL;VALUE=URI:" ++ url p ++ CRLF;
    "SUMMARY:" ++ subject p ++ CRLF;
    "DTSTART;VALUE=DATE:" ++ compact_date (day p) ++ CRLF;
    "DTSTAMP;VALUE=DATETIME:" ++ stamp ++ CRLF;
    "UID:" ++ compact_date (day p) ++ calendar ++ CRLF;
    "DESCRIPTION:" ++ description p ++ CRLF;
    "TRANSP:TRANSPARENT" ++ CRLF;
    "END:VEVENT" ++ CRLF ].

Definition ics_header_lines (calendar : string) : list string :=
  [ "BEGIN:VCALENDAR" ++ CRLF;
    "VERSION:2.0" ++ CRLF;
    "CALSCALE:GREGORIAN" ++ CRLF;
    "METHOD:PUBLISH" ++ CRLF;
    "PRODID:https://github.com/mtpettyp/ical_toronto_waste" ++ CRLF;
    "X-WR-CALNAME:" ++ calendar ++ " Waste Pickup" ++ CRLF;
    "X-WR-TIMEZONE:America/Toronto" ++ CRLF ].

Definition ics_footer_line : string := "END:VCALENDAR" ++ CRLF.

(** One interchange file. *)
Definition ics_calendar_events (stamp : string) (data : dict) (calendar : string)
  : list Event :=
  let path := "output/ics/" ++ calendar ++ ".ics" in
  Log ("[INFO] Writing " ++ calendar ++ " ICS") ::
  OpenWrite path ::
  map (Write path)
    (ics_header_lines calendar ++
     flat_map (ics_event_lines stamp calendar) (dict_get data calendar) ++
     [ics_footer_line])%list.

(** The clock as [write_ics] reads it when entered in [w]: one effect, a
    line of log, comes before the reading. *)
Definition ics_stamp (w : World) : string :=
  strftime (wall_clock w (S (List.length (trace w)))) ICS_DATETIME_FORMAT.

(** [s.startswith(pre)] *)
Fixpoint starts_with (pre s : string) : bool :=
  match pre with
  | "" => true
  | String c pre' =>
      match s with
      | "" => false
      | String a s' => Ascii.eqb a c && starts_with pre' s'
      end
  end.

(** A line that starts with [DTSTAMP], written to some file. *)
Definition is_dtstamp (ev : Event) : bool :=
  match ev with
  | Write _ text => starts_with "DTSTAMP" text
  | _ => false
  end.


(** ** What the aggregator is to read *)

Section ReadingSpec.

Variable unicode_digit : string -> option (Z * string).

(** The rows of one file, parsed in order; the first row that fails stops
    the reading. *)
Fixpoint parse_rows (rows : list (list string)) : PyError + list Pickup :=
  match rows with
  | [] => inr []
  | row :: rows' =>
      match Pickup_init unicode_digit row with
      | inl e => inl e
      | inr p =>
          match parse_rows rows' with
          | inl e => inl e
          | inr ps => inr (p :: ps)
          end
      end
  end.

(** One file: exactly one header line is skipped. *)
Definition read_file (files : list (string * list (list string))) (path : string)
  : PyError + list Pickup :=
  match find_file files path with
  | None => inl (FileNotFoundError path)
  | Some [] => inl StopIteration
  | Some (_ :: rows) => parse_rows rows
  end.

(** The files in the order given, each in the order of its rows. *)
Fixpoint read_all (files : list (string * list (list string))) (paths : list string)
  : PyError + list Pickup :=
  match paths with
  | [] => inr []
  | path :: paths' =>
      match read_file files path with
      | inl e => inl e
      | inr ps =>
          match read_all files paths' with
          | inl e => inl e
          | inr ps' => inr (ps ++ ps')%list
          end
      end
  end.

(** A row the parser refuses: not eight fields, or a date neither format
    matches. *)
Definition malformed (row : list string) : bool :=
  negb (Nat.eqb (List.length row) 8) ||
  match strptime unicode_digit (nth 2 row "") "%d-%m-%Y",
        strptime unicode_digit (nth 2 row "") "%Y-%m-%d" with
  | inl _, inl _ => true
  | _, _ => false
  end.

End ReadingSpec.

(** The error a malformed row raises. *)
Definition row_error (row : list string) : PyError :=
  if Nat.eqb (List.length row) 8 then
    ValueError ("Date " ++ nth 2 row "" ++ " does not match any known format.")
  else unpack_error (List.length row).

Definition add_pickup (data : dict) (p : Pickup) : dict :=
  dict_append data (calendar p) p.

Definition calendar_is (c : string) (p : Pickup) : bool :=
  String.eqb (calendar p) c.

Definition lexicographic (a b : string) : Prop := String.leb a b = true.

(** The paths [process_data] reads, in the order it reads them. *)
Definition schedule_files (w : World) : list string :=
  sorted (filter (glob_match SCHEDULES_FILE_REGEX) (map fst (input_files w))).

Definition parsing_events (paths : list string) : list Event :=
  flat_map (fun file => [Log ("[INFO] Parsing " ++ file); OpenRead file]) paths.

(** The statement that the error of a malformed row tells its place: some
    function of the error and of everything the run printed and touched
    gives the file and the line, the header being line 1. *)
Definition error_locates_row : Prop :=
  exists locate : PyError -> list Event -> string * nat,
  forall (u : string -> option (Z * string)) (w : World)
         (before after : list string) (file : string)
         (header row : list string) (good rest : list (list string))
         (ps0 ps1 : list Pickup),
    schedule_files w = (before ++ file :: after)%list ->
    read_all u (input_files w) before = inr ps0 ->
    find_file (input_files w) file = Some (header :: good ++ row :: rest)%list ->
    parse_rows u good = inr ps1 ->
    malformed u row = true ->
    exists e,
      fst (process_data u w) = inl e /\
      locate e (trace (snd (process_data u w))) = (file, (List.length good + 2)%nat).

(** Two trees that differ by the line of the row with the bad date. *)
Definition bad_row : list string :=
  ["9"; "North"; "2024/03/15"; "0"; "1"; "0"; "0"; "0"].

Definition good_row : list string :=
  ["1"; "North"; "2024-03-08"; "0"; "1"; "0"; "0"; "0"].

Definition bad_at_line_2 : World :=
  {| input_files := [("schedules/pickup-schedule-A.csv", [header_row; bad_row])];
     wall_clock := fun _ => noon;
     trace := [] |}.

Definition bad_at_line_3 : World :=
  {| input_files :=
       [("schedules/pickup-schedule-A.csv", [header_row; good_row; bad_row])];
     wall_clock := fun _ => noon;
     trace := [] |}.






(** The pickup of the row 7, East, 2024-03-15 with the flag fields empty,
    [false], [00], [0] and [1]. *)
Definition east_pickup : Pickup :=
  mk_Pickup "East" (mk_datetime 2024 3 15 0 0 0) true true true false true.



(** ** The patterns of the two input formats *)

Definition day_group : re_item :=
  ReGroup "d" [ [CLit "3"; CRange "0" "1"]; [CRange "1" "2"; CDigit];
                [CLit "0"; CRange "1" "9"]; [CRange "1" "9"];
                [CLit " "; CRange "1" "9"] ].

Definition month_group : re_item :=
  ReGroup "m" [ [CLit "1"; CRange "0" "2"]; [CLit "0"; CRange "1" "9"];
                [CRange "1" "9"] ].

Definition year_group : re_item :=
  ReGroup "Y" [ [CDigit; CDigit; CDigit; CDigit] ].

(** What [%d-%m-%Y] and [%Y-%m-%d] compile to. *)
Definition day_first_pattern : list re_item :=
  [day_group; ReLit "-"; month_group; ReLit "-"; year_group].

Definition year_first_pattern : list re_item :=
  [year_group; ReLit "-"; month_group; ReLit "-"; day_group].

(** A date spelled with its leading zeros, day first and year first. *)
Definition day_first_text (y m d : Z) : string :=
  zero_pad 2 d ++ "-" ++ zero_pad 2 m ++ "-" ++ zero_pad 4 y.

Definition year_first_text (y m d : Z) : string :=
  zero_pad 4 y ++ "-" ++ zero_pad 2 m ++ "-" ++ zero_pad 2 d.

(** The error [parse_date] ends with. *)
Definition no_known_format (date_str : string) : PyError :=
  ValueError ("Date " ++ date_str ++ " does not match any known format.").

(** Three digits at the head of a string, as [\d\d\d] reads them. *)
Definition three_digits (unicode_digit : string -> option (Z * string)) (s : string)
  : bool :=
  match match_class unicode_digit CDigit s with
  | None => false
  | Some (_, s1) =>
      match match_class unicode_digit CDigit s1 with
      | None => false
      | Some (_, s2) =>
          match match_class unicode_digit CDigit s2 with
          | None => false
          | Some _ => true
          end
      end
  end.

(** ** Observing a run *)

(** The events of reading: lines of log, the scan, files opened to read. *)
Definition is_read_event (ev : Event) : bool :=
  match ev with
  | Log _ | Glob _ | OpenRead _ => true
  | _ => false
  end.

(** The paths opened for writing, in order. *)
Fixpoint opened (evs : list Event) : list string :=
  match evs with
  | [] => []
  | OpenWrite path :: evs' => path :: opened evs'
  | _ :: evs' => opened evs'
  end.

(** The paths opened for reading, in order. *)
Fixpoint read_paths (evs : list Event) : list string :=
  match evs with
  | [] => []
  | OpenRead path :: evs' => path :: read_paths evs'
  | _ :: evs' => read_paths evs'
  end.

Definition csv_path (calendar : string) : string := "output/csv/" ++ calendar ++ ".csv".
Definition ics_path (calendar : string) : string := "output/ics/" ++ calendar ++ ".ics".

(** The distinct elements of a list, each at its first place. *)
Fixpoint first_occurrences (l : list string) : list string :=
  match l with
  | [] => []
  | c :: l' => c :: filter (fun x => negb (String.eqb x c)) (first_occurrences l')
  end.

(** What a run that reads [data] writes once the reading is over, the
    clock being read after [n] effects. *)
Definition csv_events (data : dict) : list Event :=
  ([Log "[INFO] Writing CSV calendars"] ++
   flat_map (csv_calendar_events data) (dict_keys data) ++
   [Log "[INFO] Finished writing CSV calendars"])%list.

Definition ics_events (stamp : string) (data : dict) : list Event :=
  (Log "[INFO] Writing ICS calendars" :: Now ::
   flat_map (ics_calendar_events stamp data) (dict_keys data) ++
   [Log "[INFO] Finished writing ICS calendars"])%list.

Definition reading_events (paths : list string) : list Event :=
  Log "[INFO] Parsing City of Toronto Open Data" ::
  Glob "schedules/pickup-schedule-*.csv" :: parsing_events paths.

(** A tree with nothing for [process_data] to read, and one where a
    schedule file is empty. *)
Definition no_schedule_world : World :=
  {| input_files := [("schedules/README.md", []); ("notes/pickup-schedule-1.csv", [])];
     wall_clock := fun _ => noon;
     trace := [] |}.

Definition empty_file_world : World :=
  {| input_files :=
       [ ("schedules/pickup-schedule-B.csv", []);
         ("schedules/pickup-schedule-A.csv", [header_row; good_row]) ];
     wall_clock := fun _ => noon;
     trace := [] |}.

(** The same tree as [small_world], met in another order by the scan. *)
Definition small_world_rescanned : World :=
  {| input_files :=
       [ ("schedules/pickup-schedule-A.csv",
          [header_row; ["1"; "North"; "01-06-2024"; "1"; "1"; "0"; "0"; "0"];
                       ["2"; "South"; "08-06-2024"; "1"; "0"; "1"; "Y"; "0"]]);
         ("schedules/pickup-schedule-B.csv",
          [header_row; ["1"; "North"; "2024-01-02"; "0"; "0"; "T"; "0"; "0"]]);
         ("schedules/README.md", []) ];
     wall_clock := fun _ => noon;
     trace := [] |}.

(** A day or a month written without its leading zero. *)
Definition short_number (n : Z) : string :=
  if n <? 10 then String (digit_char n) "" else zero_pad 2 n.

(** The pickups of [small_world] in reading order, and their groups. *)
Definition small_pickups : list Pickup :=
  [ mk_Pickup "North" (mk_datetime 2024 6 1 0 0 0) true true false false false;
    mk_Pickup "South" (mk_datetime 2024 6 8 0 0 0) true false true true false;
    mk_Pickup "North" (mk_datetime 2024 1 2 0 0 0) false false true false false ].

Definition small_data : dict :=
  [ ("North",
     [ mk_Pickup "North" (mk_datetime 2024 6 1 0 0 0) true true false false false;
       mk_Pickup "North" (mk_datetime 2024 1 2 0 0 0) false false true false false ]);
    ("South",
     [ mk_Pickup "South" (mk_datetime 2024 6 8 0 0 0) true false true true false ]) ].

(** * Properties *)

(** ** Facts on strings *)

Lemma str_append_assoc (a b c : string) : (a ++ b) ++ c = a ++ (b ++ c).
Proof. induction a as [|x a IH]; simpl; [reflexivity|]. rewrite IH. reflexivity. Qed.

Lemma str_append_nil_r (a : string) : a ++ "" = a.
Proof. induction a as [|x a IH]; simpl; [reflexivity|]. rewrite IH. reflexivity. Qed.

Lemma str_length_append (a b : string) :
  String.length (a ++ b) = (String.length a + String.length b)%nat.
Proof. induction a as [|x a IH]; simpl; [reflexivity|]. rewrite IH. reflexivity. Qed.

(** ** The date parser *)

Section DateParser.

Variable unicode_digit : string -> option (Z * string).

Lemma strptime_raises_ValueError (s fmt : string) (e : PyError) :
  strptime unicode_digit s fmt = inl e -> exists msg, e = ValueError msg.
Proof.
  unfold strptime.
  destruct (compile_format fmt) as [items|]; [|intros [= <-]; eauto].
  destruct (re_match unicode_digit items s) as [[found rest]|]; [|intros [= <-]; eauto].
  destruct (negb (rest =? "")%string); [intros [= <-]; eauto|].
  destruct (valid_date _ _ _); [discriminate|intros [= <-]; eauto].
Qed.

Lemma strptime_valid (s fmt : string) (t : datetime) :
  strptime unicode_digit s fmt = inr t -> valid_datetime t = true.
Proof.
  unfold strptime.
  destruct (compile_format fmt) as [items|]; [|discriminate].
  destruct (re_match unicode_digit items s) as [[found rest]|]; [|discriminate].
  destruct (negb (rest =? "")%string); [discriminate|].
  destruct (valid_date _ _ _) eqn:V; [|discriminate].
  intros [= <-]. unfold valid_datetime. simpl. rewrite V. reflexivity.
Qed.

Lemma parse_date_from_valid (formats : list string) (s : string) (t : datetime) :
  parse_date_from unicode_digit formats s = inr t -> valid_datetime t = true.
Proof.
  induction formats as [|f formats IH]; simpl; [discriminate|].
  destruct (strptime unicode_digit s f) as [e|t'] eqn:E.
  - destruct e; try discriminate. exact IH.
  - intros [= <-]. exact (strptime_valid _ _ _ E).
Qed.

Lemma parse_date_cases (s : string) :
  parse_date unicode_digit s =
  match strptime unicode_digit s "%d-%m-%Y" with
  | inr t => inr t
  | inl _ =>
      match strptime unicode_digit s "%Y-%m-%d" with
      | inr t => inr t
      | inl _ =>
          inl (ValueError ("Date " ++ s ++ " does not match any known format."))
      end
  end.
Proof.
  unfold parse_date, INPUT_DATE_FORMATS. simpl.
  destruct (strptime unicode_digit s "%d-%m-%Y") as [e1|t1] eqn:E1; [|reflexivity].
  destruct (strptime_raises_ValueError _ _ _ E1) as [m1 ->].
  destruct (strptime unicode_digit s "%Y-%m-%d") as [e2|t2] eqn:E2; [|reflexivity].
  destruct (strptime_raises_ValueError _ _ _ E2) as [m2 ->].
  reflexivity.
Qed.

(** C1: every string is tried as day-month-year, then as year-month-day;
    the first format that matches gives the date, and when neither does
    the error carries the string.  "15-03-2024" and "2024-03-15" are the
    same date, 15 March 2024, and "2024/03/15" fails. *)
Theorem parse_date_first_matching_format :
  (forall s : string,
     parse_date unicode_digit s =
     match strptime unicode_digit s "%d-%m-%Y" with
     | inr t => inr t
     | inl _ =>
         match strptime unicode_digit s "%Y-%m-%d" with
         | inr t => inr t
         | inl _ =>
             inl (ValueError ("Date " ++ s ++ " does not match any known format."))
         end
     end) /\
  parse_date unicode_digit "15-03-2024" = inr (mk_datetime 2024 3 15 0 0 0) /\
  parse_date unicode_digit "2024-03-15" = inr (mk_datetime 2024 3 15 0 0 0) /\
  parse_date unicode_digit "2024/03/15" =
    inl (ValueError "Date 2024/03/15 does not match any known format.").
Proof.
  split; [exact parse_date_cases|repeat split; reflexivity].
Qed.

End DateParser.

(** *** The two spellings of a date *)

Section Spellings.

Variable unicode_digit : string -> option (Z * string).

Lemma match_digit (k : Z) (s : string) :
  0 <= k <= 9 ->
  match_class unicode_digit CDigit (String (digit_char k) s) = Some ([k], s).
Proof.
  intros H.
  assert (C : k = 0 \/ k = 1 \/ k = 2 \/ k = 3 \/ k = 4 \/ k = 5 \/ k = 6 \/
              k = 7 \/ k = 8 \/ k = 9) by lia.
  destruct C as [C|[C|[C|[C|[C|[C|[C|[C|[C|C]]]]]]]]]; subst k; reflexivity.
Qed.

Lemma zero_pad_4 (y : Z) :
  zero_pad 4 y =
  String (digit_char (y / 1000 mod 10)) (String (digit_char (y / 100 mod 10))
    (String (digit_char (y / 10 mod 10)) (String (digit_char (y mod 10)) ""))).
Proof.
  cbn [zero_pad String.append].
  rewrite !Z.div_div by lia. reflexivity.
Qed.

Lemma re_match_literal (c : ascii) (items : list re_item) (s : string) :
  re_match unicode_digit (ReLit c :: items) (String c s) =
  re_match unicode_digit items s.
Proof. cbn [re_match]. rewrite Ascii.eqb_refl. reflexivity. Qed.

Lemma re_match_year (y : Z) (items : list re_item) (s : string)
      (found : list (ascii * Z)) (rest : string) :
  0 <= y <= 9999 ->
  re_match unicode_digit items s = Some (found, rest) ->
  re_match unicode_digit (ReGroup "Y" [[CDigit; CDigit; CDigit; CDigit]] :: items)
    (zero_pad 4 y ++ s) = Some (("Y"%char, y) :: found, rest).
Proof.
  intros Hy H. rewrite zero_pad_4. cbn [String.append re_match first_some match_seq].
  pose proof (Z.mod_pos_bound (y / 1000) 10 ltac:(lia)).
  pose proof (Z.mod_pos_bound (y / 100) 10 ltac:(lia)).
  pose proof (Z.mod_pos_bound (y / 10) 10 ltac:(lia)).
  pose proof (Z.mod_pos_bound y 10 ltac:(lia)).
  rewrite !match_digit by lia. rewrite H.
  replace (int_of_digits ([y / 1000 mod 10] ++ [y / 100 mod 10] ++
                          [y / 10 mod 10] ++ [y mod 10] ++ [])%list) with y;
    [reflexivity|].
  unfold int_of_digits. cbn [app fold_left].
  Z.div_mod_to_equations. lia.
Qed.

Lemma re_match_month (m : Z) (items : list re_item) (s : string)
      (found : list (ascii * Z)) (rest : string) :
  1 <= m <= 12 ->
  re_match unicode_digit items s = Some (found, rest) ->
  re_match unicode_digit
    (ReGroup "m" [ [CLit "1"; CRange "0" "2"]; [CLit "0"; CRange "1" "9"];
                   [CRange "1" "9"] ] :: items)
    (zero_pad 2 m ++ s) = Some (("m"%char, m) :: found, rest).
Proof.
  intros Hm H.
  assert (C : m = 1 \/ m = 2 \/ m = 3 \/ m = 4 \/ m = 5 \/ m = 6 \/ m = 7 \/
              m = 8 \/ m = 9 \/ m = 10 \/ m = 11 \/ m = 12) by lia.
  repeat (destruct C as [C|C]; [subst m; simpl; rewrite H; reflexivity|]).
  subst m; simpl; rewrite H; reflexivity.
Qed.

Lemma re_match_day (d : Z) (items : list re_item) (s : string)
      (found : list (ascii * Z)) (rest : string) :
  1 <= d <= 31 ->
  re_match unicode_digit items s = Some (found, rest) ->
  re_match unicode_digit
    (ReGroup "d" [ [CLit "3"; CRange "0" "1"]; [CRange "1" "2"; CDigit];
                   [CLit "0"; CRange "1" "9"]; [CRange "1" "9"];
                   [CLit " "; CRange "1" "9"] ] :: items)
    (zero_pad 2 d ++ s) = Some (("d"%char, d) :: found, rest).
Proof.
  intros Hd H.
  assert (C : d = 1 \/ d = 2 \/ d = 3 \/ d = 4 \/ d = 5 \/ d = 6 \/ d = 7 \/
              d = 8 \/ d = 9 \/ d = 10 \/ d = 11 \/ d = 12 \/ d = 13 \/ d = 14 \/
              d = 15 \/ d = 16 \/ d = 17 \/ d = 18 \/ d = 19 \/ d = 20 \/ d = 21 \/
              d = 22 \/ d = 23 \/ d = 24 \/ d = 25 \/ d = 26 \/ d = 27 \/ d = 28 \/
              d = 29 \/ d = 30 \/ d = 31) by lia.
  repeat (destruct C as [C|C]; [subst d; simpl; rewrite H; reflexivity|]).
  subst d; simpl; rewrite H; reflexivity.
Qed.

Lemma day_first_rejects_three_digits (a b c : Z) (s : string) :
  0 <= a <= 9 -> 0 <= b <= 9 -> 0 <= c <= 9 ->
  re_match unicode_digit
    [ ReGroup "d" [ [CLit "3"; CRange "0" "1"]; [CRange "1" "2"; CDigit];
                    [CLit "0"; CRange "1" "9"]; [CRange "1" "9"];
                    [CLit " "; CRange "1" "9"] ];
      ReLit "-";
      ReGroup "m" [ [CLit "1"; CRange "0" "2"]; [CLit "0"; CRange "1" "9"];
                    [CRange "1" "9"] ];
      ReLit "-";
      ReGroup "Y" [[CDigit; CDigit; CDigit; CDigit]] ]
    (String (digit_char a) (String (digit_char b) (String (digit_char c) s))) = None.
Proof.
  intros Ha Hb Hc.
  assert (Ca : a = 0 \/ a = 1 \/ a = 2 \/ a = 3 \/ a = 4 \/ a = 5 \/ a = 6 \/
               a = 7 \/ a = 8 \/ a = 9) by lia.
  assert (Cb : b = 0 \/ b = 1 \/ b = 2 \/ b = 3 \/ b = 4 \/ b = 5 \/ b = 6 \/
               b = 7 \/ b = 8 \/ b = 9) by lia.
  assert (Cc : c = 0 \/ c = 1 \/ c = 2 \/ c = 3 \/ c = 4 \/ c = 5 \/ c = 6 \/
               c = 7 \/ c = 8 \/ c = 9) by lia.
  clear Ha Hb Hc.
  destruct Ca as [?|[?|[?|[?|[?|[?|[?|[?|[?|?]]]]]]]]]; subst a;
    destruct Cb as [?|[?|[?|[?|[?|[?|[?|[?|[?|?]]]]]]]]]; subst b;
    destruct Cc as [?|[?|[?|[?|[?|[?|[?|[?|[?|?]]]]]]]]]; subst c;
    reflexivity.
Qed.

Lemma valid_date_bounds (y m d : Z) :
  valid_date y m d = true -> 1 <= y <= 9999 /\ 1 <= m <= 12 /\ 1 <= d <= 31.
Proof.
  unfold valid_date, days_in_month. intros H.
  repeat (apply andb_prop in H; destruct H as [H ?]).
  destruct (m =? 2); [destruct (is_leap y)|];
    [| |destruct ((m =? 4) || (m =? 6) || (m =? 9) || (m =? 11))]; lia.
Qed.

(** X1: every date of the calendar, spelled day-month-year or
    year-month-day with its leading zeros, parses to itself. *)
Lemma parse_date_both_spellings (y m d : Z) :
  valid_date y m d = true ->
  parse_date unicode_digit (zero_pad 2 d ++ "-" ++ zero_pad 2 m ++ "-" ++ zero_pad 4 y)
    = inr (mk_datetime y m d 0 0 0) /\
  parse_date unicode_digit (zero_pad 4 y ++ "-" ++ zero_pad 2 m ++ "-" ++ zero_pad 2 d)
    = inr (mk_datetime y m d 0 0 0).
Proof.
  intros V. destruct (valid_date_bounds y m d V) as [Hy [Hm Hd]].
  assert (DMY : strptime unicode_digit
                  (zero_pad 2 d ++ "-" ++ zero_pad 2 m ++ "-" ++ zero_pad 4 y)
                  "%d-%m-%Y" = inr (mk_datetime y m d 0 0 0)).
  { unfold strptime. cbn [compile_format Ascii.eqb Bool.eqb directive_regex option_map].
    rewrite (re_match_day d _ _ [("m"%char, m); ("Y"%char, y)] "" Hd).
    - cbn [String.eqb negb found_get Ascii.eqb Bool.eqb]. rewrite V. reflexivity.
    - cbn [String.append]. rewrite re_match_literal.
      apply (re_match_month m _ _ [("Y"%char, y)] "" Hm).
      cbn [String.append]. rewrite re_match_literal.
      rewrite <- (str_append_nil_r (zero_pad 4 y)).
      apply (re_match_year y [] "" [] "" ltac:(lia)). reflexivity. }
  assert (YMD : strptime unicode_digit
                  (zero_pad 4 y ++ "-" ++ zero_pad 2 m ++ "-" ++ zero_pad 2 d)
                  "%Y-%m-%d" = inr (mk_datetime y m d 0 0 0)).
  { unfold strptime. cbn [compile_format Ascii.eqb Bool.eqb directive_regex option_map].
    rewrite (re_match_year y _ _ [("m"%char, m); ("d"%char, d)] "" ltac:(lia)).
    - cbn [String.eqb negb found_get Ascii.eqb Bool.eqb]. rewrite V. reflexivity.
    - cbn [String.append]. rewrite re_match_literal.
      apply (re_match_month m _ _ [("d"%char, d)] "" Hm).
      cbn [String.append]. rewrite re_match_literal.
      rewrite <- (str_append_nil_r (zero_pad 2 d)).
      apply (re_match_day d [] "" [] "" Hd). reflexivity. }
  split; rewrite parse_date_cases.
  - rewrite DMY. reflexivity.
  - replace (strptime unicode_digit
               (zero_pad 4 y ++ "-" ++ zero_pad 2 m ++ "-" ++ zero_pad 2 d) "%d-%m-%Y")
      with (@inl PyError datetime
              (ValueError ("time data " ++
                           (zero_pad 4 y ++ "-" ++ zero_pad 2 m ++ "-" ++ zero_pad 2 d) ++
                           " does not match format " ++ "%d-%m-%Y"))).
    + rewrite YMD. reflexivity.
    + unfold strptime.
      cbn [compile_format Ascii.eqb Bool.eqb directive_regex option_map].
      pose proof (Z.mod_pos_bound (y / 1000) 10 ltac:(lia)).
      pose proof (Z.mod_pos_bound (y / 100) 10 ltac:(lia)).
      pose proof (Z.mod_pos_bound (y / 10) 10 ltac:(lia)).
      rewrite zero_pad_4 at 2. cbn [String.append].
      rewrite day_first_rejects_three_digits by lia. reflexivity.
Qed.

End Spellings.

(** ** The derived texts of a [Pickup] *)

(** C2: the subject is the emojis of the true categories among christmas
    tree, yard waste, recycling, garbage, in that order, then the names of
    the same categories joined by "/", the emojis coming first; with only
    garbage true among the four it is "🗑 Garbage Day". *)
Theorem subject_emojis_then_names :
  (forall p : Pickup, subject p = subject_emojis p ++ " " ++ subject_names p) /\
  (forall (c : string) (d : datetime) (gb : bool),
     subject (mk_Pickup c d gb true false false false) = "🗑 Garbage Day").
Proof.
  split.
  - intros [c d gb g r y x]. destruct g, r, y, x; reflexivity.
  - reflexivity.
Qed.

(** C3: the description is the names of the true categories joined by "/"
    in the order christmas tree, garbage, recycling, green bin, yard waste,
    which is not the order of the subject; with garbage, recycling and
    green bin true and the rest false it is "Garbage/Recycling/Green Bin". *)
Theorem description_names_in_order :
  (forall p : Pickup, description p = description_names p) /\
  (forall (c : string) (d : datetime),
     description (mk_Pickup c d true true true false false) =
     "Garbage/Recycling/Green Bin") /\
  (forall (c : string) (d : datetime),
     description (mk_Pickup c d false true true false false) = "Garbage/Recycling" /\
     subject (mk_Pickup c d false true true false false) =
     "♻️🗑 Recycling Day/Garbage Day").
Proof.
  split; [|split].
  - intros [c d gb g r y x]. destruct gb, g, r, y, x; reflexivity.
  - reflexivity.
  - split; reflexivity.
Qed.

(** C10: the emoji block and the names of a subject are separated by
    exactly one space (the block holds none and the names do not start
    with one), the green-bin flag has no part in the subject, and with
    christmas tree, yard waste, recycling and garbage all false the
    subject is the one-space string. *)
Theorem subject_single_space_no_green_bin :
  (forall p : Pickup,
     subject p = subject_emojis p ++ " " ++ subject_names p /\
     has_char " " (subject_emojis p) = false /\
     starts_with_char " " (subject_names p) = false) /\
  (forall (p : Pickup) (b : bool), subject (set_green_bin b p) = subject p) /\
  (forall (c : string) (d : datetime) (gb : bool),
     subject (mk_Pickup c d gb false false false false) = " ").
Proof.
  split; [|split].
  - intros [c d gb g r y x]. destruct g, r, y, x; repeat split; reflexivity.
  - intros p b. reflexivity.
  - reflexivity.
Qed.

(** ** Effects *)

Lemma emits_nil (w : World) : emits [] w = w.
Proof. destruct w. unfold emits. simpl. rewrite app_nil_r. reflexivity. Qed.

Lemma emits_app (e1 e2 : list Event) (w : World) :
  emits e2 (emits e1 w) = emits (e1 ++ e2)%list w.
Proof. unfold emits. simpl. rewrite app_assoc. reflexivity. Qed.

Lemma record_emits (ev : Event) (w : World) : record ev w = emits [ev] w.
Proof. reflexivity. Qed.

Lemma for_each_emits {X : Type} (f : X -> list Event) (body : X -> IO unit) :
  (forall x w, body x w = (inr tt, emits (f x) w)) ->
  forall xs w, for_each xs body w = (inr tt, emits (flat_map f xs) w).
Proof.
  intros Hbody xs. induction xs as [|x xs IH]; intros w; simpl.
  - unfold ret. rewrite emits_nil. reflexivity.
  - unfold bind. rewrite Hbody, IH, emits_app. reflexivity.
Qed.

(** Unfolds the primitive effects and the sequencing around a loop. *)
Ltac io_unfold :=
  unfold logging_info, csv_writerow, file_write, emit, bind, ret;
  rewrite ?record_emits.

Lemma flat_map_single {X Y : Type} (g : X -> Y) (l : list X) :
  flat_map (fun x => [g x]) l = map g l.
Proof. induction l as [|x l IH]; simpl; [reflexivity|]. rewrite IH. reflexivity. Qed.

(** ** Formatting dates *)

Lemma strftime_csv_date (t : datetime) :
  strftime t CSV_DATE_FORMAT = two_digit_date t.
Proof. reflexivity. Qed.


Lemma mod10_cases (n : Z) :
  n mod 10 = 0 \/ n mod 10 = 1 \/ n mod 10 = 2 \/ n mod 10 = 3 \/ n mod 10 = 4 \/
  n mod 10 = 5 \/ n mod 10 = 6 \/ n mod 10 = 7 \/ n mod 10 = 8 \/ n mod 10 = 9.
Proof. pose proof (Z.mod_pos_bound n 10 ltac:(lia)). lia. Qed.




(** ** The tabular serializer *)

Lemma csv_needs_quotes_app (a b : string) :
  csv_needs_quotes (a ++ b) = csv_needs_quotes a || csv_needs_quotes b.
Proof.
  induction a as [|c a IH]; simpl; [reflexivity|].
  rewrite IH, orb_assoc. reflexivity.
Qed.

Lemma zero_pad_plain (w : nat) (n : Z) : csv_needs_quotes (zero_pad w n) = false.
Proof.
  revert n. induction w as [|w IH]; intros n; simpl; [reflexivity|].
  rewrite csv_needs_quotes_app, IH.
  destruct (mod10_cases n) as [H|[H|[H|[H|[H|[H|[H|[H|[H|H]]]]]]]]];
    rewrite H; reflexivity.
Qed.

Lemma subject_plain (p : Pickup) : csv_needs_quotes (subject p) = false.
Proof. destruct p as [c d gb g r y x]. destruct g, r, y, x; reflexivity. Qed.

Lemma description_url_plain (p : Pickup) :
  csv_needs_quotes
    (description p ++ " - See " ++ (if recycling p then URL_RECYCLING else URL_GARBAGE))
  = false.
Proof. destruct p as [c d gb g r y x]. destruct gb, g, r, y, x; reflexivity. Qed.

Lemma two_digit_date_plain (t : datetime) : csv_needs_quotes (two_digit_date t) = false.
Proof.
  unfold two_digit_date.
  rewrite !csv_needs_quotes_app, !zero_pad_plain. reflexivity.
Qed.

Lemma csv_row_of_pickup (p : Pickup) :
  csv_row_text (csv_fields p) =
  subject p ++ "," ++ two_digit_date (day p) ++ ",TRUE," ++
  description p ++ " - See " ++ url p ++ CRLF.
Proof.
  unfold csv_row_text, csv_fields, csv_field. cbn [map].
  rewrite subject_plain, two_digit_date_plain, description_url_plain.
  cbn [csv_needs_quotes csv_special]. simpl orb.
  unfold url. cbn [join]. rewrite !str_append_assoc. reflexivity.
Qed.

Lemma write_csv_emits (data : dict) (w : World) :
  write_csv data w =
  (inr tt,
   emits ([Log "[INFO] Writing CSV calendars"] ++
          flat_map (csv_calendar_events data) (dict_keys data) ++
          [Log "[INFO] Finished writing CSV calendars"])%list w).
Proof.
  unfold write_csv. io_unfold.
  rewrite (for_each_emits (csv_calendar_events data)).
  - cbv beta iota. rewrite ?record_emits, !emits_app. reflexivity.
  - intros calendar w0. io_unfold.
    rewrite (for_each_emits
               (fun p => [Write (CSV_OUT_PATH ++ calendar ++ ".csv")
                            (csv_row_text (csv_fields p))])).
    + cbv beta iota. rewrite ?record_emits, !emits_app, flat_map_single. reflexivity.
    + intros p w1. reflexivity.
Qed.

(** C4: for every calendar group the tabular serializer writes the header
    row Subject, Start Date, All Day Event, Description and then one row
    per pickup of the group, in the stored order, with the subject, the day
    as two-digit month-day-year, TRUE, and the description followed by
    " - See " and the url, which is the recycling URL when recycling is
    true and the garbage URL otherwise. *)
Theorem write_csv_rows :
  (forall (data : dict) (w : World),
     write_csv data w =
     (inr tt,
      emits ([Log "[INFO] Writing CSV calendars"] ++
             flat_map (csv_calendar_events data) (dict_keys data) ++
             [Log "[INFO] Finished writing CSV calendars"])%list w)) /\
  csv_row_text ["Subject"; "Start Date"; "All Day Event"; "Description"] =
    "Subject,Start Date,All Day Event,Description" ++ CRLF /\
  (forall p : Pickup,
     csv_row_text (csv_fields p) =
     subject p ++ "," ++ two_digit_date (day p) ++ ",TRUE," ++
     description p ++ " - See " ++ url p ++ CRLF).
Proof.
  split; [exact write_csv_emits|split; [reflexivity|exact csv_row_of_pickup]].
Qed.

(** ** The interchange serializer *)

Lemma map_flat_map {X Y Z0 : Type} (g : Y -> Z0) (f : X -> list Y) (l : list X) :
  flat_map (fun x => map g (f x)) l = map g (flat_map f l).
Proof.
  induction l as [|x l IH]; simpl; [reflexivity|].
  rewrite IH, map_app. reflexivity.
Qed.

Lemma write_ics_emits (data : dict) (w : World) :
  write_ics data w =
  (inr tt,
   emits (Log "[INFO] Writing ICS calendars" :: Now ::
          flat_map (ics_calendar_events (ics_stamp w) data) (dict_keys data) ++
          [Log "[INFO] Finished writing ICS calendars"])%list w).
Proof.
  unfold write_ics, datetime_now. io_unfold.
  replace (List.length (trace (emits [Log ("[INFO] " ++ "Writing ICS calendars")] w)))
    with (S (List.length (trace w)))
    by (unfold emits; simpl; rewrite length_app; simpl; lia).
  change (wall_clock (emits _ w)) with (wall_clock w).
  fold (ics_stamp w).
  rewrite (for_each_emits (ics_calendar_events (ics_stamp w) data)).
  - cbv beta iota. rewrite ?record_emits, !emits_app. reflexivity.
  - intros calendar w0. io_unfold.
    rewrite (for_each_emits
               (fun p => map (Write (ICS_OUT_PATH ++ calendar ++ ".ics"))
                           (ics_event_lines (ics_stamp w) calendar p))).
    + cbv beta iota. rewrite ?record_emits, !emits_app, map_flat_map.
      unfold ics_calendar_events. rewrite !map_app. reflexivity.
    + intros p w1. io_unfold. rewrite ?record_emits, !emits_app. reflexivity.
Qed.

Lemma filter_dtstamp_writes (path : string) (lines : list string) :
  filter is_dtstamp (map (Write path) lines) =
  map (Write path) (filter (starts_with "DTSTAMP") lines).
Proof.
  induction lines as [|l lines IH]; [reflexivity|].
  cbn [map filter is_dtstamp].
  destruct (starts_with "DTSTAMP" l); cbn [map]; rewrite IH; reflexivity.
Qed.

Lemma dtstamp_of_event (stamp calendar : string) (p : Pickup) :
  filter (starts_with "DTSTAMP") (ics_event_lines stamp calendar p) =
  ["DTSTAMP;VALUE=DATETIME:" ++ stamp ++ CRLF].
Proof. reflexivity. Qed.

Lemma dtstamp_of_events (stamp calendar : string) (ps : list Pickup) :
  filter (starts_with "DTSTAMP") (flat_map (ics_event_lines stamp calendar) ps) =
  map (fun _ => "DTSTAMP;VALUE=DATETIME:" ++ stamp ++ CRLF) ps.
Proof.
  induction ps as [|p ps IH]; [reflexivity|].
  cbn [flat_map map]. rewrite filter_app, dtstamp_of_event, IH. reflexivity.
Qed.

Lemma dtstamp_of_calendar (stamp : string) (data : dict) (calendar : string) :
  filter is_dtstamp (ics_calendar_events stamp data calendar) =
  map (fun _ => Write ("output/ics/" ++ calendar ++ ".ics")
                  ("DTSTAMP;VALUE=DATETIME:" ++ stamp ++ CRLF))
      (dict_get data calendar).
Proof.
  unfold ics_calendar_events. cbn [filter is_dtstamp].
  rewrite filter_dtstamp_writes, !filter_app, dtstamp_of_events.
  change (filter (starts_with "DTSTAMP") (ics_header_lines calendar)) with (@nil string).
  change (filter (starts_with "DTSTAMP") [ics_footer_line]) with (@nil string).
  rewrite app_nil_r. cbn [app]. rewrite map_map. reflexivity.
Qed.

Lemma dtstamp_of_calendars (stamp : string) (data : dict) (keys : list string) :
  filter is_dtstamp (flat_map (ics_calendar_events stamp data) keys) =
  flat_map (fun calendar =>
              map (fun _ => Write ("output/ics/" ++ calendar ++ ".ics")
                              ("DTSTAMP;VALUE=DATETIME:" ++ stamp ++ CRLF))
                  (dict_get data calendar)) keys.
Proof.
  induction keys as [|c keys IH]; [reflexivity|].
  cbn [flat_map]. rewrite filter_app, dtstamp_of_calendar, IH. reflexivity.
Qed.

Lemma Now_not_written (stamp : string) (data : dict) (keys : list string) :
  ~ In Now (flat_map (ics_calendar_events stamp data) keys).
Proof.
  intros H. apply in_flat_map in H. destruct H as [c [_ H]].
  unfold ics_calendar_events in H.
  destruct H as [H|[H|H]]; try discriminate.
  apply in_map_iff in H. destruct H as [l [H _]]. discriminate.
Qed.

(** C6: in one run the interchange serializer reads the clock once, on
    entry, before any calendar is opened, and the DTSTAMP line of every
    event of every calendar carries that one reading. *)
Theorem write_ics_single_timestamp (data : dict) (w : World) :
  exists rest : list Event,
    write_ics data w =
      (inr tt, emits (Log "[INFO] Writing ICS calendars" :: Now :: rest) w) /\
    ~ In Now rest /\
    (forall ev, In ev rest -> is_dtstamp ev = true ->
       exists path,
         ev = Write path ("DTSTAMP;VALUE=DATETIME:" ++ ics_stamp w ++ CRLF)) /\
    List.length (filter is_dtstamp rest) =
      List.length (flat_map (dict_get data) (dict_keys data)).
Proof.
  exists (flat_map (ics_calendar_events (ics_stamp w) data) (dict_keys data) ++
          [Log "[INFO] Finished writing ICS calendars"])%list.
  split; [exact (write_ics_emits data w)|].
  split; [|split].
  - intros H. apply in_app_or in H. destruct H as [H|[H|[]]]; [|discriminate].
    exact (Now_not_written _ _ _ H).
  - intros ev Hin Hd.
    assert (Hf : In ev (filter is_dtstamp
                          (flat_map (ics_calendar_events (ics_stamp w) data)
                             (dict_keys data) ++
                           [Log "[INFO] Finished writing ICS calendars"])%list))
      by (apply filter_In; split; assumption).
    rewrite filter_app, dtstamp_of_calendars in Hf. simpl in Hf.
    rewrite app_nil_r in Hf.
    apply in_flat_map in Hf. destruct Hf as [c [_ Hf]].
    apply in_map_iff in Hf. destruct Hf as [p [Hf _]].
    eexists. symmetry. exact Hf.
  - rewrite filter_app, dtstamp_of_calendars. simpl. rewrite app_nil_r.
    induction (dict_keys data) as [|c keys IH]; [reflexivity|].
    cbn [flat_map]. rewrite !length_app, length_map, IH. reflexivity.
Qed.

(** ** The order of the files *)

Lemma ascii_compare_trans (a b c : ascii) (r : comparison) :
  Ascii.compare a b = r -> Ascii.compare b c = r -> Ascii.compare a c = r.
Proof.
  unfold Ascii.compare. intros H1 H2. destruct r.
  - apply N.compare_eq_iff in H1. apply N.compare_eq_iff in H2.
    apply N.compare_eq_iff. congruence.
  - apply N.compare_lt_iff in H1. apply N.compare_lt_iff in H2.
    apply N.compare_lt_iff. exact (N.lt_trans _ _ _ H1 H2).
  - apply N.compare_gt_iff in H1. apply N.compare_gt_iff in H2.
    apply N.compare_gt_iff. exact (N.lt_trans _ _ _ H2 H1).
Qed.

Lemma ascii_compare_eq (a b : ascii) : Ascii.compare a b = Eq -> a = b.
Proof.
  apply Ascii.compare_eq_iff.
Qed.

Lemma string_compare_lt_trans (a b c : string) :
  String.compare a b = Lt -> String.compare b c = Lt -> String.compare a c = Lt.
Proof.
  revert b c. induction a as [|x a IH]; intros [|y b] [|z c]; simpl;
    try discriminate; try reflexivity.
  destruct (Ascii.compare x y) eqn:Exy; try discriminate;
    destruct (Ascii.compare y z) eqn:Eyz; try discriminate; intros H1 H2.
  - apply ascii_compare_eq in Exy, Eyz. subst.
    replace (Ascii.compare z z) with Eq
      by (symmetry; unfold Ascii.compare; apply N.compare_refl).
    eauto.
  - apply ascii_compare_eq in Exy. subst. rewrite Eyz. reflexivity.
  - apply ascii_compare_eq in Eyz. subst. rewrite Exy. reflexivity.
  - rewrite (ascii_compare_trans x y z Lt Exy Eyz). reflexivity.
Qed.

Lemma string_compare_eq (a b : string) : String.compare a b = Eq -> a = b.
Proof. apply String.compare_eq_iff. Qed.

Lemma string_compare_refl (a : string) : String.compare a a = Eq.
Proof.
  induction a as [|x a IH]; simpl; [reflexivity|].
  replace (Ascii.compare x x) with Eq
    by (symmetry; unfold Ascii.compare; apply N.compare_refl).
  exact IH.
Qed.

Lemma lexicographic_trans (a b c : string) :
  lexicographic a b -> lexicographic b c -> lexicographic a c.
Proof.
  unfold lexicographic, String.leb. intros H1 H2.
  destruct (String.compare a b) eqn:Eab; try discriminate;
    destruct (String.compare b c) eqn:Ebc; try discriminate.
  - apply string_compare_eq in Eab, Ebc. subst.
    rewrite string_compare_refl. reflexivity.
  - apply string_compare_eq in Eab. subst. rewrite Ebc. reflexivity.
  - apply string_compare_eq in Ebc. subst. rewrite Eab. reflexivity.
  - rewrite (string_compare_lt_trans a b c Eab Ebc). reflexivity.
Qed.

Lemma lexicographic_total (a b : string) : lexicographic a b \/ lexicographic b a.
Proof. apply String.leb_total. Qed.

Lemma insert_sorted_perm (x : string) (l : list string) :
  Permutation (x :: l) (insert_sorted x l).
Proof.
  induction l as [|y l IH]; simpl; [apply Permutation_refl|].
  destruct (String.leb x y); [apply Permutation_refl|].
  apply perm_trans with (y :: x :: l); [apply perm_swap|].
  apply perm_skip. exact IH.
Qed.

Lemma sorted_perm (l : list string) : Permutation l (sorted l).
Proof.
  induction l as [|x l IH]; simpl; [apply perm_nil|].
  apply perm_trans with (x :: sorted l); [apply perm_skip; exact IH|].
  apply insert_sorted_perm.
Qed.

Lemma insert_sorted_ordered (x : string) (l : list string) :
  StronglySorted lexicographic l -> StronglySorted lexicographic (insert_sorted x l).
Proof.
  induction l as [|y l IH]; intros Hl; simpl.
  - constructor; [constructor|constructor].
  - inversion Hl as [|y' l' Hl' Hy]; subst.
    destruct (String.leb x y) eqn:E.
    + constructor; [exact Hl|].
      constructor; [exact E|].
      apply Forall_forall. intros z Hz.
      apply lexicographic_trans with y; [exact E|].
      rewrite Forall_forall in Hy. exact (Hy z Hz).
    + constructor; [exact (IH Hl')|].
      apply Forall_forall. intros z Hz.
      apply (Permutation_in z (Permutation_sym (insert_sorted_perm x l))) in Hz.
      destruct Hz as [<-|Hz].
      * destruct (lexicographic_total x y) as [H|H]; [|exact H].
        unfold lexicographic in H. congruence.
      * rewrite Forall_forall in Hy. exact (Hy z Hz).
Qed.

Lemma sorted_ordered (l : list string) : StronglySorted lexicographic (sorted l).
Proof.
  induction l as [|x l IH]; simpl; [constructor|].
  apply insert_sorted_ordered. exact IH.
Qed.

(** ** Grouping *)

Lemma dict_get_append (data : dict) (k : string) (p : Pickup) (c : string) :
  dict_get (dict_append data k p) c =
  if String.eqb k c then (dict_get data c ++ [p])%list else dict_get data c.
Proof.
  induction data as [|[k0 v] data IH]; simpl.
  - destruct (String.eqb_spec k c); reflexivity.
  - destruct (String.eqb_spec k0 k) as [->|Hk]; simpl.
    + destruct (String.eqb_spec k c); reflexivity.
    + destruct (String.eqb_spec k0 c) as [->|Hc]; [|exact IH].
      destruct (String.eqb_spec k c); [congruence|reflexivity].
Qed.

Lemma in_keys_append (data : dict) (k : string) (p : Pickup) (c : string) :
  In c (dict_keys (dict_append data k p)) <-> In c (dict_keys data) \/ c = k.
Proof.
  induction data as [|[k0 v] data IH]; simpl.
  - intuition congruence.
  - destruct (String.eqb_spec k0 k) as [->|Hk]; simpl.
    + intuition congruence.
    + unfold dict_keys in IH. rewrite IH. intuition congruence.
Qed.

Lemma NoDup_keys_append (data : dict) (k : string) (p : Pickup) :
  NoDup (dict_keys data) -> NoDup (dict_keys (dict_append data k p)).
Proof.
  induction data as [|[k0 v] data IH]; simpl; intros H.
  - constructor; [intros []|constructor].
  - inversion H as [|k' l' Hnot Hnd]; subst.
    destruct (String.eqb_spec k0 k) as [->|Hk]; simpl; [exact H|].
    constructor; [|exact (IH Hnd)].
    intros Hin. apply in_keys_append in Hin. destruct Hin as [Hin|Heq]; [|congruence].
    exact (Hnot Hin).
Qed.

Lemma grouped_get (ps : list Pickup) (data : dict) (c : string) :
  dict_get (fold_left add_pickup ps data) c =
  (dict_get data c ++ filter (calendar_is c) ps)%list.
Proof.
  revert data. induction ps as [|p ps IH]; intros data; simpl.
  - rewrite app_nil_r. reflexivity.
  - rewrite IH. unfold add_pickup at 1. rewrite dict_get_append.
    unfold calendar_is at 2.
    destruct (String.eqb (calendar p) c); [|reflexivity].
    rewrite <- app_assoc. reflexivity.
Qed.

Lemma grouped_keys (ps : list Pickup) (data : dict) (c : string) :
  In c (dict_keys (fold_left add_pickup ps data)) <->
  In c (dict_keys data) \/ In c (map calendar ps).
Proof.
  revert data. induction ps as [|p ps IH]; intros data; simpl.
  - intuition.
  - rewrite IH. unfold add_pickup at 1. rewrite in_keys_append. intuition congruence.
Qed.

Lemma grouped_NoDup (ps : list Pickup) (data : dict) :
  NoDup (dict_keys data) -> NoDup (dict_keys (fold_left add_pickup ps data)).
Proof.
  revert data. induction ps as [|p ps IH]; intros data H; simpl; [exact H|].
  apply IH. apply NoDup_keys_append. exact H.
Qed.

(** ** The aggregator *)

Section Aggregator.

Variable unicode_digit : string -> option (Z * string).


Lemma malformed_raises (row : list string) :
  malformed unicode_digit row = true -> Pickup_init unicode_digit row = inl (row_error row).
Proof.
  destruct row as [|a [|b [|c [|d [|e [|f [|g [|h [|i row]]]]]]]]];
    try (intros _; reflexivity).
  unfold malformed, row_error, Pickup_init. cbn [List.length Nat.eqb negb orb nth].
  rewrite parse_date_cases.
  destruct (strptime unicode_digit c "%d-%m-%Y"); [|discriminate].
  destruct (strptime unicode_digit c "%Y-%m-%d"); [|discriminate].
  reflexivity.
Qed.

Lemma wellformed_parses (row : list string) :
  malformed unicode_digit row = false -> exists p, Pickup_init unicode_digit row = inr p.
Proof.
  destruct row as [|a [|b [|c [|d [|e [|f [|g [|h [|i row]]]]]]]]];
    try discriminate.
  unfold malformed, Pickup_init. cbn [List.length Nat.eqb negb orb nth].
  rewrite parse_date_cases.
  destruct (strptime unicode_digit c "%d-%m-%Y"); [|eauto].
  destruct (strptime unicode_digit c "%Y-%m-%d"); [discriminate|eauto].
Qed.

Lemma parse_rows_abort (good : list (list string)) (row : list string)
      (rest : list (list string)) (ps : list Pickup) (e : PyError) :
  parse_rows unicode_digit good = inr ps -> Pickup_init unicode_digit row = inl e ->
  parse_rows unicode_digit (good ++ row :: rest)%list = inl e.
Proof.
  revert ps. induction good as [|r good IH]; intros ps Hg Hr; simpl.
  - rewrite Hr. reflexivity.
  - simpl in Hg. destruct (Pickup_init unicode_digit r); [discriminate|].
    destruct (parse_rows unicode_digit good) as [|ps'] eqn:E; [discriminate|].
    rewrite (IH ps' eq_refl Hr). reflexivity.
Qed.

Lemma for_fold_rows (rows : list (list string)) (data : dict) (w : World) :
  for_fold rows (process_row unicode_digit) data w =
  (match parse_rows unicode_digit rows with
   | inl e => inl e
   | inr ps => inr (fold_left add_pickup ps data)
   end, w).
Proof.
  revert data. induction rows as [|row rows IH]; intros data; simpl; [reflexivity|].
  unfold bind, process_row at 1, lift, bind, ret.
  destruct (Pickup_init unicode_digit row) as [e|p]; [reflexivity|].
  rewrite IH. destruct (parse_rows unicode_digit rows); reflexivity.
Qed.

Lemma process_file_run (file : string) (data : dict) (w : World) :
  process_file unicode_digit file data w =
  match find_file (input_files w) file with
  | None =>
      (inl (FileNotFoundError file), emits [Log ("[INFO] Parsing " ++ file)] w)
  | Some rows =>
      (match rows with
       | [] => inl StopIteration
       | _ :: rows' =>
           match parse_rows unicode_digit rows' with
           | inl e => inl e
           | inr ps => inr (fold_left add_pickup ps data)
           end
       end,
       emits [Log ("[INFO] Parsing " ++ file); OpenRead file] w)
  end.
Proof.
  unfold process_file, open_csv, lift, next_row. io_unfold.
  change (input_files (emits _ w)) with (input_files w).
  destruct (find_file (input_files w) file) as [rows|]; [|reflexivity].
  rewrite emits_app.
  destruct rows as [|header rows]; [reflexivity|].
  cbn [snd]. rewrite for_fold_rows. reflexivity.
Qed.

Lemma for_fold_app {X S : Type} (l1 l2 : list X) (body : X -> S -> IO S) (s : S)
      (w : World) :
  for_fold (l1 ++ l2)%list body s w =
  bind (for_fold l1 body s) (fun s' => for_fold l2 body s') w.
Proof.
  revert s w. induction l1 as [|x l1 IH]; intros s w; simpl; [reflexivity|].
  unfold bind. destruct (body x s w) as [[e|s'] w']; [reflexivity|].
  rewrite IH. reflexivity.
Qed.

Lemma process_files_run (paths : list string) (data : dict) (w : World) :
  fst (for_fold paths (process_file unicode_digit) data w) =
    match read_all unicode_digit (input_files w) paths with
    | inl e => inl e
    | inr ps => inr (fold_left add_pickup ps data)
    end /\
  (forall ps, read_all unicode_digit (input_files w) paths = inr ps ->
     snd (for_fold paths (process_file unicode_digit) data w) = emits (parsing_events paths) w).
Proof.
  revert data w. induction paths as [|file paths IH]; intros data w.
  - split; [reflexivity|]. intros ps _. simpl. rewrite emits_nil. reflexivity.
  - cbn [for_fold read_all]. unfold bind, read_file.
    rewrite process_file_run.
    destruct (find_file (input_files w) file) as [rows|];
      [|split; [reflexivity|discriminate]].
    destruct rows as [|header rows]; [split; [reflexivity|discriminate]|].
    destruct (parse_rows unicode_digit rows) as [e|ps1]; [split; [reflexivity|discriminate]|].
    destruct (IH (fold_left add_pickup ps1 data)
                 (emits [Log ("[INFO] Parsing " ++ file); OpenRead file] w))
      as [IH1 IH2].
    change (input_files (emits _ w)) with (input_files w) in IH1, IH2.
    split.
    + rewrite IH1. destruct (read_all unicode_digit (input_files w) paths); [reflexivity|].
      rewrite fold_left_app. reflexivity.
    + intros ps H.
      destruct (read_all unicode_digit (input_files w) paths) as [e|ps2]; [discriminate|].
      rewrite (IH2 ps2 eq_refl), emits_app. reflexivity.
Qed.

Lemma process_data_run (w : World) :
  process_data unicode_digit w =
  for_fold (schedule_files w) (process_file unicode_digit) []
    (emits [Log "[INFO] Parsing City of Toronto Open Data"; Glob SCHEDULES_FILE_REGEX] w).
Proof.
  unfold process_data, glob_glob. io_unfold.
  rewrite emits_app. reflexivity.
Qed.

(** A run that succeeds groups the pickups read, and leaves this trace. *)
Lemma process_data_grouped (w w' : World) (data : dict) :
  process_data unicode_digit w = (inr data, w') ->
  exists ps,
    read_all unicode_digit (input_files w) (schedule_files w) = inr ps /\
    data = fold_left add_pickup ps [] /\
    w' = emits (Log "[INFO] Parsing City of Toronto Open Data" ::
                Glob SCHEDULES_FILE_REGEX :: parsing_events (schedule_files w)) w.
Proof.
  rewrite process_data_run. intros H.
  destruct (process_files_run (schedule_files w) []
              (emits [Log "[INFO] Parsing City of Toronto Open Data";
                      Glob SCHEDULES_FILE_REGEX] w)) as [H1 H2].
  change (input_files (emits _ w)) with (input_files w) in H1, H2.
  rewrite H in H1, H2. cbn [fst snd] in H1, H2.
  destruct (read_all unicode_digit (input_files w) (schedule_files w)) as [e|ps]; [discriminate|].
  exists ps. split; [reflexivity|]. split; [congruence|].
  rewrite (H2 ps eq_refl), emits_app. reflexivity.
Qed.


Lemma parse_rows_valid (rows : list (list string)) (ps : list Pickup) (p : Pickup) :
  parse_rows unicode_digit rows = inr ps -> In p ps -> valid_datetime (day p) = true.
Proof.
  revert ps. induction rows as [|row rows IH]; intros ps; simpl.
  - intros [= <-] [].
  - destruct (Pickup_init unicode_digit row) as [e|q] eqn:Eq; [discriminate|].
    destruct (parse_rows unicode_digit rows) as [e|qs]; [discriminate|].
    intros [= <-] [<-|Hin]; [|exact (IH qs eq_refl Hin)].
    destruct row as [|a [|b [|c [|d [|e [|f [|g [|h [|i row]]]]]]]]];
      try discriminate.
    unfold Pickup_init in Eq.
    destruct (parse_date unicode_digit c) as [e0|t] eqn:Et; [discriminate|].
    injection Eq as <-. simpl. exact (parse_date_from_valid _ _ _ _ Et).
Qed.

(** C7: the aggregator reads the matching files in lexicographic order of
    their names, skips exactly one header line in each, and yields a
    mapping where each calendar identifier has a single group holding
    every pickup with that identifier, in the order of the files and then
    of the rows, never sorted again. *)
Theorem process_data_groups_in_reading_order (w : World) :
  StronglySorted lexicographic (schedule_files w) /\
  Permutation
    (filter (glob_match "schedules/pickup-schedule-*.csv") (map fst (input_files w)))
    (schedule_files w) /\
  match read_all unicode_digit (input_files w) (schedule_files w) with
  | inl e => fst (process_data unicode_digit w) = inl e
  | inr ps =>
      exists data,
        process_data unicode_digit w =
          (inr data,
           emits (Log "[INFO] Parsing City of Toronto Open Data" ::
                  Glob "schedules/pickup-schedule-*.csv" ::
                  parsing_events (schedule_files w)) w) /\
        NoDup (dict_keys data) /\
        (forall c, In c (dict_keys data) <-> In c (map calendar ps)) /\
        (forall c, dict_get data c = filter (calendar_is c) ps)
  end.
Proof.
  split; [apply sorted_ordered|]. split; [apply sorted_perm|].
  rewrite process_data_run.
  destruct (process_files_run (schedule_files w) []
              (emits [Log "[INFO] Parsing City of Toronto Open Data";
                      Glob SCHEDULES_FILE_REGEX] w)) as [H1 H2].
  change (input_files (emits _ w)) with (input_files w) in H1, H2.
  destruct (read_all unicode_digit (input_files w) (schedule_files w)) as [e|ps]; [exact H1|].
  exists (fold_left add_pickup ps []). split; [|split; [|split]].
  - specialize (H2 ps eq_refl). rewrite emits_app in H2.
    destruct (for_fold (schedule_files w) (process_file unicode_digit) [] _) as [r w'].
    cbn [fst snd] in H1, H2. rewrite H1, H2. reflexivity.
  - apply grouped_NoDup. constructor.
  - intros c. rewrite grouped_keys. simpl. intuition.
  - intros c. rewrite grouped_get. reflexivity.
Qed.

End Aggregator.

(** ** Whole runs *)


Lemma str_ne_true (a b : string) : str_ne a b = true <-> a <> b.
Proof.
  unfold str_ne. destruct (String.eqb_spec a b) as [->|H]; simpl.
  - split; [discriminate|]. intros H. exfalso. apply H. reflexivity.
  - split; [intros _; exact H|reflexivity].
Qed.







Section Runs.

Variable unicode_digit : string -> option (Z * string).

(** C9: in a row of eight fields each of the five flags is true exactly
    when the text of its field is not "0". *)
Theorem flags_true_unless_zero (id_ cal d gb g r y x : string) (p : Pickup) :
  Pickup_init unicode_digit [id_; cal; d; gb; g; r; y; x] = inr p ->
  (green_bin p = true <-> gb <> "0") /\
  (garbage p = true <-> g <> "0") /\
  (recycling p = true <-> r <> "0") /\
  (yard_waste p = true <-> y <> "0") /\
  (christmas_tree p = true <-> x <> "0").
Proof.
  unfold Pickup_init.
  destruct (parse_date unicode_digit d) as [e|t]; [discriminate|].
  intros [= <-]. cbn [green_bin garbage recycling yard_waste christmas_tree].
  repeat split; apply str_ne_true; assumption.
Qed.



(** C8, amended: a row that has not exactly eight fields, or whose date
    matches neither format, aborts the whole run with a [ValueError]: no
    later row or file is read and no output file is opened.  The error
    carries the date text, or tells that eight values were expected; it
    names neither the file nor the line. *)
Theorem malformed_row_aborts (w : World) (before after : list string) (file : string)
        (header row : list string) (good rest : list (list string))
        (ps0 ps1 : list Pickup) :
  schedule_files w = (before ++ file :: after)%list ->
  read_all unicode_digit (input_files w) before = inr ps0 ->
  find_file (input_files w) file = Some (header :: good ++ row :: rest)%list ->
  parse_rows unicode_digit good = inr ps1 ->
  malformed unicode_digit row = true ->
  main unicode_digit w =
    (inl (row_error row),
     emits (Log "[INFO] Parsing City of Toronto Open Data" ::
            Glob "schedules/pickup-schedule-*.csv" ::
            parsing_events (before ++ [file]))%list w) /\
  exists msg, row_error row = ValueError msg.
Proof.
  intros Hfiles Hbefore Hfile Hgood Hbad. split.
  - unfold main, bind at 1. rewrite process_data_run, Hfiles, for_fold_app.
    unfold bind at 1.
    destruct (process_files_run unicode_digit before []
                (emits [Log "[INFO] Parsing City of Toronto Open Data";
                        Glob SCHEDULES_FILE_REGEX] w)) as [H1 H2].
    change (input_files (emits _ w)) with (input_files w) in H1, H2.
    rewrite Hbefore in H1. specialize (H2 ps0 Hbefore).
    destruct (for_fold before (process_file unicode_digit) [] _) as [r w'].
    cbn [fst snd] in H1, H2. subst r w'.
    cbn [for_fold]. unfold bind at 1. rewrite process_file_run.
    change (input_files (emits _ (emits _ w))) with (input_files w).
    rewrite Hfile.
    rewrite (parse_rows_abort unicode_digit good row rest ps1 (row_error row) Hgood
               (malformed_raises unicode_digit row Hbad)).
    rewrite !emits_app. unfold parsing_events. rewrite flat_map_app.
    reflexivity.
  - unfold row_error, unpack_error.
    destruct (Nat.eqb (List.length row) 8); [eauto|].
    destruct (Nat.ltb (List.length row) 8); eauto.
Qed.

End Runs.

(** On the small tree file A is read before file B, and the group of North
    keeps that order although the pickup of B is the earlier date. *)
Example north_group_in_reading_order :
  fst (process_data ascii_digits_only small_world) =
  inr [ ("North",
         [ mk_Pickup "North" (mk_datetime 2024 6 1 0 0 0) true true false false false;
           mk_Pickup "North" (mk_datetime 2024 1 2 0 0 0) false false true false false ]);
        ("South",
         [ mk_Pickup "South" (mk_datetime 2024 6 8 0 0 0) true false true true false ]) ].
Proof. reflexivity. Qed.

Example flags_of_odd_texts :
  Pickup_init ascii_digits_only ["7"; "East"; "2024-03-15"; ""; "false"; "00"; "0"; "1"]
  = inr east_pickup.
Proof. reflexivity. Qed.

(** C8 as the specification has it, refuted: the same bad row on line 2 or
    on line 3 of a file gives the same error after the same output. *)
Lemma error_does_not_locate_row : ~ error_locates_row.
Proof.
  intros [locate H].
  destruct (H ascii_digits_only bad_at_line_2 [] [] "schedules/pickup-schedule-A.csv"
              header_row bad_row [] [] [] []
              eq_refl eq_refl eq_refl eq_refl eq_refl) as [e2 [E2 L2]].
  destruct (H ascii_digits_only bad_at_line_3 [] [] "schedules/pickup-schedule-A.csv"
              header_row bad_row [good_row] [] []
              [mk_Pickup "North" (mk_datetime 2024 3 8 0 0 0) false true false false false]
              eq_refl eq_refl eq_refl eq_refl eq_refl) as [e3 [E3 L3]].
  vm_compute in E2, E3. injection E2 as <-. injection E3 as <-.
  vm_compute in L2, L3. rewrite L2 in L3. discriminate.
Qed.


(** ** The theorems at work *)

Lemma flags_true_unless_zero_witness :
  (green_bin east_pickup = true <-> "" <> "0") /\
  (garbage east_pickup = true <-> "false" <> "0") /\
  (recycling east_pickup = true <-> "00" <> "0") /\
  (yard_waste east_pickup = true <-> "0" <> "0") /\
  (christmas_tree east_pickup = true <-> "1" <> "0").
Proof.
  exact (flags_true_unless_zero ascii_digits_only
           "7" "East" "2024-03-15" "" "false" "00" "0" "1" east_pickup eq_refl).
Defined.


Lemma malformed_row_aborts_witness :
  main ascii_digits_only bad_at_line_3 =
    (inl (ValueError "Date 2024/03/15 does not match any known format."),
     emits [ Log "[INFO] Parsing City of Toronto Open Data";
             Glob "schedules/pickup-schedule-*.csv";
             Log "[INFO] Parsing schedules/pickup-schedule-A.csv";
             OpenRead "schedules/pickup-schedule-A.csv" ] bad_at_line_3) /\
  exists msg, row_error bad_row = ValueError msg.
Proof.
  exact (malformed_row_aborts ascii_digits_only bad_at_line_3
           [] [] "schedules/pickup-schedule-A.csv" header_row bad_row [good_row] []
           []
           [mk_Pickup "North" (mk_datetime 2024 3 8 0 0 0) false true false false false]
           eq_refl eq_refl eq_refl eq_refl eq_refl).
Defined.

(** ** More on the date parser *)

Section DateParserEdges.

Variable unicode_digit : string -> option (Z * string).

Lemma zero_pad_2 (n : Z) :
  zero_pad 2 n = String (digit_char (n / 10 mod 10)) (String (digit_char (n mod 10)) "").
Proof. reflexivity. Qed.

Lemma formats_compile :
  compile_format "%d-%m-%Y" = Some day_first_pattern /\
  compile_format "%Y-%m-%d" = Some year_first_pattern.
Proof. split; reflexivity. Qed.

(** The day-first pattern on a day-first spelling, whatever follows. *)
Lemma day_first_on_day_first (y m d : Z) (x : string) :
  0 <= y <= 9999 -> 1 <= m <= 12 -> 1 <= d <= 31 ->
  re_match unicode_digit day_first_pattern (day_first_text y m d ++ x) =
  Some ([("d"%char, d); ("m"%char, m); ("Y"%char, y)], x).
Proof.
  intros Hy Hm Hd. unfold day_first_pattern, day_first_text, day_group.
  rewrite !str_append_assoc.
  apply (re_match_day unicode_digit d _ _ [("m"%char, m); ("Y"%char, y)] x Hd).
  cbn [String.append]. rewrite re_match_literal.
  apply (re_match_month unicode_digit m _ _ [("Y"%char, y)] x Hm).
  cbn [String.append]. rewrite re_match_literal.
  apply (re_match_year unicode_digit y [] x [] x Hy). reflexivity.
Qed.

Lemma year_first_on_year_first (y m d : Z) (x : string) :
  0 <= y <= 9999 -> 1 <= m <= 12 -> 1 <= d <= 31 ->
  re_match unicode_digit year_first_pattern (year_first_text y m d ++ x) =
  Some ([("Y"%char, y); ("m"%char, m); ("d"%char, d)], x).
Proof.
  intros Hy Hm Hd. unfold year_first_pattern, year_first_text, year_group.
  rewrite !str_append_assoc.
  apply (re_match_year unicode_digit y _ _ [("m"%char, m); ("d"%char, d)] x Hy).
  cbn [String.append]. rewrite re_match_literal.
  apply (re_match_month unicode_digit m _ _ [("d"%char, d)] x Hm).
  cbn [String.append]. rewrite re_match_literal.
  apply (re_match_day unicode_digit d [] x [] x Hd). reflexivity.
Qed.

(** Each pattern fails on the other spelling. *)
Lemma day_first_on_year_first (y m d : Z) (x : string) :
  0 <= y <= 9999 ->
  re_match unicode_digit day_first_pattern (year_first_text y m d ++ x) = None.
Proof.
  intros Hy. unfold year_first_text. rewrite !str_append_assoc, zero_pad_4.
  cbn [String.append].
  pose proof (Z.mod_pos_bound (y / 1000) 10 ltac:(lia)).
  pose proof (Z.mod_pos_bound (y / 100) 10 ltac:(lia)).
  pose proof (Z.mod_pos_bound (y / 10) 10 ltac:(lia)).
  apply day_first_rejects_three_digits; lia.
Qed.

Lemma year_first_on_day_first (y m d : Z) (x : string) :
  re_match unicode_digit year_first_pattern (day_first_text y m d ++ x) = None.
Proof.
  unfold day_first_text. rewrite !str_append_assoc, zero_pad_2.
  pose proof (Z.mod_pos_bound (d / 10) 10 ltac:(lia)).
  pose proof (Z.mod_pos_bound d 10 ltac:(lia)).
  unfold year_first_pattern, year_group.
  cbn [String.append re_match first_some match_seq].
  rewrite !match_digit by lia. reflexivity.
Qed.

Lemma strptime_day_first_text (y m d : Z) (x : string) :
  0 <= y <= 9999 -> 1 <= m <= 12 -> 1 <= d <= 31 ->
  strptime unicode_digit (day_first_text y m d ++ x) "%d-%m-%Y" =
  if negb (String.eqb x "") then inl (ValueError ("unconverted data remains: " ++ x))
  else if valid_date y m d then inr (mk_datetime y m d 0 0 0)
       else inl (ValueError "day is out of range for month").
Proof.
  intros Hy Hm Hd. unfold strptime.
  rewrite (proj1 formats_compile), day_first_on_day_first by assumption.
  reflexivity.
Qed.

Lemma strptime_year_first_text (y m d : Z) (x : string) :
  0 <= y <= 9999 -> 1 <= m <= 12 -> 1 <= d <= 31 ->
  strptime unicode_digit (year_first_text y m d ++ x) "%Y-%m-%d" =
  if negb (String.eqb x "") then inl (ValueError ("unconverted data remains: " ++ x))
  else if valid_date y m d then inr (mk_datetime y m d 0 0 0)
       else inl (ValueError "day is out of range for month").
Proof.
  intros Hy Hm Hd. unfold strptime.
  rewrite (proj2 formats_compile), year_first_on_year_first by assumption.
  reflexivity.
Qed.

Lemma strptime_wrong_order_1 (y m d : Z) (x : string) :
  0 <= y <= 9999 ->
  exists msg,
    strptime unicode_digit (year_first_text y m d ++ x) "%d-%m-%Y" = inl (ValueError msg).
Proof.
  intros Hy. unfold strptime.
  rewrite (proj1 formats_compile), day_first_on_year_first by assumption. eauto.
Qed.

Lemma strptime_wrong_order_2 (y m d : Z) (x : string) :
  exists msg,
    strptime unicode_digit (day_first_text y m d ++ x) "%Y-%m-%d" = inl (ValueError msg).
Proof.
  unfold strptime.
  rewrite (proj2 formats_compile), year_first_on_day_first. eauto.
Qed.

Lemma strptime_real_day (s fmt : string) (t : datetime) :
  strptime unicode_digit s fmt = inr t ->
  valid_date (year t) (month t) (day_of_month t) = true /\
  hour t = 0 /\ minute t = 0 /\ second t = 0.
Proof.
  unfold strptime.
  destruct (compile_format fmt) as [items|]; [|discriminate].
  destruct (re_match unicode_digit items s) as [[found rest]|]; [|discriminate].
  destruct (negb (rest =? "")%string); [discriminate|].
  destruct (valid_date _ _ _) eqn:V; [|discriminate].
  intros [= <-]. cbn [year month day_of_month hour minute second].
  rewrite V. repeat split.
Qed.

Lemma parse_date_from_real_day (formats : list string) (s : string) (t : datetime) :
  parse_date_from unicode_digit formats s = inr t ->
  valid_date (year t) (month t) (day_of_month t) = true /\
  hour t = 0 /\ minute t = 0 /\ second t = 0.
Proof.
  induction formats as [|f formats IH]; simpl; [discriminate|].
  destruct (strptime unicode_digit s f) as [e|t'] eqn:E.
  - destruct e; try discriminate. exact IH.
  - intros [= <-]. exact (strptime_real_day _ _ _ E).
Qed.

(** X2: a date that [parse_date] returns is a date of the calendar, the
    year between 1 and 9999 and the day within the length of its month,
    leap years counted, at midnight. *)
Theorem parse_date_real_day (s : string) (t : datetime) :
  parse_date unicode_digit s = inr t ->
  1 <= year t <= 9999 /\ 1 <= month t <= 12 /\
  1 <= day_of_month t <= days_in_month (year t) (month t) /\
  hour t = 0 /\ minute t = 0 /\ second t = 0.
Proof.
  intros H. destruct (parse_date_from_real_day _ _ _ H) as [V [Hh [Hm Hs]]].
  unfold valid_date in V.
  repeat (apply andb_prop in V; destruct V as [V ?]). lia.
Qed.

Lemma parse_date_day_first_text (y m d : Z) (x : string) :
  0 <= y <= 9999 -> 1 <= m <= 12 -> 1 <= d <= 31 ->
  parse_date unicode_digit (day_first_text y m d ++ x) =
  if negb (String.eqb x "") || negb (valid_date y m d)
  then inl (no_known_format (day_first_text y m d ++ x))
  else inr (mk_datetime y m d 0 0 0).
Proof.
  intros Hy Hm Hd.
  rewrite parse_date_cases, strptime_day_first_text by assumption.
  destruct (strptime_wrong_order_2 y m d x) as [msg ->].
  destruct (negb (String.eqb x "")); [reflexivity|].
  destruct (valid_date y m d); reflexivity.
Qed.

Lemma parse_date_year_first_text (y m d : Z) (x : string) :
  0 <= y <= 9999 -> 1 <= m <= 12 -> 1 <= d <= 31 ->
  parse_date unicode_digit (year_first_text y m d ++ x) =
  if negb (String.eqb x "") || negb (valid_date y m d)
  then inl (no_known_format (year_first_text y m d ++ x))
  else inr (mk_datetime y m d 0 0 0).
Proof.
  intros Hy Hm Hd.
  rewrite parse_date_cases, strptime_year_first_text by assumption.
  destruct (strptime_wrong_order_1 y m d x Hy) as [msg ->].
  destruct (negb (String.eqb x "")); [reflexivity|].
  destruct (valid_date y m d); reflexivity.
Qed.

(** X3: a well-spelled date that the calendar does not have, such as 31
    April or 29 February of a common year or any day of the year 0000, is
    refused in both spellings, with the error that says it matches no
    known format. *)
Theorem impossible_date_refused (y m d : Z) :
  0 <= y <= 9999 -> 1 <= m <= 12 -> 1 <= d <= 31 ->
  valid_date y m d = false ->
  parse_date unicode_digit (day_first_text y m d) =
    inl (ValueError ("Date " ++ day_first_text y m d ++
                     " does not match any known format.")) /\
  parse_date unicode_digit (year_first_text y m d) =
    inl (ValueError ("Date " ++ year_first_text y m d ++
                     " does not match any known format.")).
Proof.
  intros Hy Hm Hd V.
  pose proof (parse_date_day_first_text y m d "" Hy Hm Hd) as H1.
  pose proof (parse_date_year_first_text y m d "" Hy Hm Hd) as H2.
  rewrite !str_append_nil_r, V in H1, H2. split; assumption.
Qed.

(** X4: a date followed by anything, a blank or a time of day, is refused:
    the whole field has to be the date. *)
Theorem trailing_text_refused (y m d : Z) (x : string) :
  valid_date y m d = true ->
  x <> "" ->
  parse_date unicode_digit (day_first_text y m d ++ x) =
    inl (ValueError ("Date " ++ (day_first_text y m d ++ x) ++
                     " does not match any known format.")) /\
  parse_date unicode_digit (year_first_text y m d ++ x) =
    inl (ValueError ("Date " ++ (year_first_text y m d ++ x) ++
                     " does not match any known format.")).
Proof.
  intros V Hx. destruct (valid_date_bounds y m d V) as [Hy [Hm Hd]].
  assert (N : negb (String.eqb x "") = true).
  { destruct (String.eqb_spec x ""); [contradiction|reflexivity]. }
  rewrite parse_date_day_first_text, parse_date_year_first_text by lia.
  rewrite N. split; reflexivity.
Qed.

End DateParserEdges.

(** ** The two formats never meet *)

Section FormatsApart.

Variable unicode_digit : string -> option (Z * string).

Lemma lit_inv (c : ascii) (s : string) (ds : list Z) (r : string) :
  match_class unicode_digit (CLit c) s = Some (ds, r) -> s = String c r.
Proof.
  destruct s as [|a s']; cbn [match_class]; [discriminate|].
  destruct (Ascii.eqb_spec a c) as [->|]; [|discriminate].
  intros [= _ <-]. reflexivity.
Qed.

Lemma range_inv (lo hi : ascii) (s : string) (ds : list Z) (r : string) :
  match_class unicode_digit (CRange lo hi) s = Some (ds, r) ->
  exists a, s = String a r /\ ascii_code lo <= ascii_code a <= ascii_code hi.
Proof.
  destruct s as [|a s']; cbn [match_class]; [discriminate|].
  destruct ((ascii_code lo <=? ascii_code a) && (ascii_code a <=? ascii_code hi))
    eqn:E; [|discriminate].
  intros [= _ <-]. exists a. split; [reflexivity|].
  apply andb_prop in E. destruct E as [E1 E2].
  apply Z.leb_le in E1. apply Z.leb_le in E2. lia.
Qed.

Lemma digit_of_ascii (a : ascii) (r : string) :
  48 <= ascii_code a <= 57 ->
  exists v, match_class unicode_digit CDigit (String a r) = Some ([v], r).
Proof.
  intros H. cbn [match_class]. unfold ascii_digit. cbv zeta.
  replace ((48 <=? ascii_code a) && (ascii_code a <=? 57)) with true; [eauto|].
  symmetry. apply andb_true_intro. split; apply Z.leb_le; lia.
Qed.

Lemma seq1_inv (k : cclass) (s : string) (ds : list Z) (r : string) :
  match_seq unicode_digit [k] s = Some (ds, r) ->
  exists da, match_class unicode_digit k s = Some (da, r).
Proof.
  cbn [match_seq]. destruct (match_class unicode_digit k s) as [[da r1]|];
    [|discriminate].
  intros [= _ <-]. eauto.
Qed.

Lemma seq2_inv (k1 k2 : cclass) (s : string) (ds : list Z) (r : string) :
  match_seq unicode_digit [k1; k2] s = Some (ds, r) ->
  exists da r1 db,
    match_class unicode_digit k1 s = Some (da, r1) /\
    match_class unicode_digit k2 r1 = Some (db, r).
Proof.
  cbn [match_seq]. destruct (match_class unicode_digit k1 s) as [[da r1]|];
    [|discriminate].
  destruct (match_class unicode_digit k2 r1) as [[db r2]|] eqn:E2; [|discriminate].
  intros [= _ <-]. exists da, r1, db. split; [reflexivity|exact E2].
Qed.

Lemma group_inv (name : ascii) (alts : list (list cclass)) (items : list re_item)
      (s : string) (x : list (ascii * Z) * string) :
  re_match unicode_digit (ReGroup name alts :: items) s = Some x ->
  exists alt ds rest y,
    In alt alts /\ match_seq unicode_digit alt s = Some (ds, rest) /\
    re_match unicode_digit items rest = Some y.
Proof.
  cbn [re_match]. induction alts as [|alt alts IH]; cbn [first_some]; [discriminate|].
  destruct (match_seq unicode_digit alt s) as [[ds rest]|] eqn:M.
  - destruct (re_match unicode_digit items rest) as [[found rest']|] eqn:R.
    + intros _. exists alt, ds, rest, (found, rest').
      split; [left; reflexivity|]. split; assumption.
    + intros H. destruct (IH H) as [a [d [r [y [Hin H']]]]].
      exists a, d, r, y. split; [right; exact Hin|exact H'].
  - intros H. destruct (IH H) as [a [d [r [y [Hin H']]]]].
    exists a, d, r, y. split; [right; exact Hin|exact H'].
Qed.

Lemma dash_inv (items : list re_item) (s : string) (y : list (ascii * Z) * string) :
  re_match unicode_digit (ReLit "-" :: items) s = Some y -> exists r, s = String "-" r.
Proof.
  cbn [re_match]. destruct s as [|a r]; [discriminate|].
  destruct (Ascii.eqb_spec a "-") as [->|]; [eauto|discriminate].
Qed.

Lemma year_first_needs_three_digits (items : list re_item) (s : string)
      (x : list (ascii * Z) * string) :
  re_match unicode_digit (year_group :: items) s = Some x ->
  three_digits unicode_digit s = true.
Proof.
  unfold year_group, three_digits. cbn [re_match first_some match_seq].
  destruct (match_class unicode_digit CDigit s) as [[d1 s1]|]; [|discriminate].
  destruct (match_class unicode_digit CDigit s1) as [[d2 s2]|]; [|discriminate].
  destruct (match_class unicode_digit CDigit s2) as [[d3 s3]|]; [|discriminate].
  reflexivity.
Qed.

Lemma day_first_forbids_three_digits (items : list re_item) (s : string)
      (x : list (ascii * Z) * string) :
  re_match unicode_digit (day_group :: ReLit "-" :: items) s = Some x ->
  three_digits unicode_digit s = false.
Proof.
  intros H. apply group_inv in H.
  destruct H as [alt [ds [rest [y [Hin [M R]]]]]].
  apply dash_inv in R. destruct R as [r ->].
  unfold three_digits.
  destruct Hin as [<-|[<-|[<-|[<-|[<-|[]]]]]].
  - apply seq2_inv in M. destruct M as [da [r1 [db [M1 M2]]]].
    apply lit_inv in M1. apply range_inv in M2. destruct M2 as [b [-> Hb]]. subst s.
    change (ascii_code "0") with 48 in Hb. change (ascii_code "1") with 49 in Hb.
    destruct (digit_of_ascii b (String "-" r) ltac:(lia)) as [v Hv].
    change (match_class unicode_digit CDigit (String "3" (String b (String "-" r))))
      with (Some ([3], String b (String "-" r))).
    cbv iota beta. rewrite Hv. reflexivity.
  - apply seq2_inv in M. destruct M as [da [r1 [db [M1 M2]]]].
    apply range_inv in M1. destruct M1 as [a [-> Ha]].
    change (ascii_code "1") with 49 in Ha. change (ascii_code "2") with 50 in Ha.
    destruct (digit_of_ascii a r1 ltac:(lia)) as [v Hv].
    rewrite Hv, M2. reflexivity.
  - apply seq2_inv in M. destruct M as [da [r1 [db [M1 M2]]]].
    apply lit_inv in M1. apply range_inv in M2. destruct M2 as [b [-> Hb]]. subst s.
    change (ascii_code "1") with 49 in Hb. change (ascii_code "9") with 57 in Hb.
    destruct (digit_of_ascii b (String "-" r) ltac:(lia)) as [v Hv].
    change (match_class unicode_digit CDigit (String "0" (String b (String "-" r))))
      with (Some ([0], String b (String "-" r))).
    cbv iota beta. rewrite Hv. reflexivity.
  - apply seq1_inv in M. destruct M as [da M1].
    apply range_inv in M1. destruct M1 as [a [-> Ha]].
    change (ascii_code "1") with 49 in Ha. change (ascii_code "9") with 57 in Ha.
    destruct (digit_of_ascii a (String "-" r) ltac:(lia)) as [v Hv].
    rewrite Hv. reflexivity.
  - apply seq2_inv in M. destruct M as [da [r1 [db [M1 M2]]]].
    apply lit_inv in M1. subst s. reflexivity.
Qed.

Lemma formats_apart (s : string) (t1 t2 : datetime) :
  strptime unicode_digit s "%d-%m-%Y" = inr t1 ->
  strptime unicode_digit s "%Y-%m-%d" = inr t2 -> False.
Proof.
  unfold strptime. rewrite (proj1 formats_compile), (proj2 formats_compile).
  destruct (re_match unicode_digit day_first_pattern s) as [x1|] eqn:E1;
    [|discriminate].
  destruct (re_match unicode_digit year_first_pattern s) as [x2|] eqn:E2;
    [|destruct x1; discriminate].
  intros _ _.
  apply day_first_forbids_three_digits in E1.
  apply year_first_needs_three_digits in E2. congruence.
Qed.

(** X5: no string is a date in both formats, so the order in which
    [parse_date] tries them decides nothing: tried the other way round they
    give the same date or the same error. *)
Theorem format_order_is_immaterial (s : string) :
  parse_date_from unicode_digit ["%Y-%m-%d"; "%d-%m-%Y"] s =
  parse_date unicode_digit s.
Proof.
  rewrite parse_date_cases. cbn [parse_date_from].
  destruct (strptime unicode_digit s "%d-%m-%Y") as [e1|t1] eqn:E1;
    destruct (strptime unicode_digit s "%Y-%m-%d") as [e2|t2] eqn:E2.
  - destruct (strptime_raises_ValueError _ _ _ _ E1) as [m1 ->].
    destruct (strptime_raises_ValueError _ _ _ _ E2) as [m2 ->]. reflexivity.
  - reflexivity.
  - destruct (strptime_raises_ValueError _ _ _ _ E2) as [m2 ->]. reflexivity.
  - exfalso. exact (formats_apart s t1 t2 E1 E2).
Qed.

End FormatsApart.

(** ** The run as a whole *)

Section WholeRun.

Variable unicode_digit : string -> option (Z * string).

Lemma forallb_read_app (a b : list Event) :
  forallb is_read_event (a ++ b) = forallb is_read_event a && forallb is_read_event b.
Proof. apply forallb_app. Qed.

Lemma parsing_events_read (paths : list string) :
  forallb is_read_event (parsing_events paths) = true.
Proof. induction paths as [|p paths IH]; [reflexivity|exact IH]. Qed.

Lemma process_files_read_only (paths : list string) (data : dict) (w : World) :
  exists evs,
    snd (for_fold paths (process_file unicode_digit) data w) = emits evs w /\
    forallb is_read_event evs = true.
Proof.
  revert data w. induction paths as [|file paths IH]; intros data w.
  - exists []. split; [simpl; rewrite emits_nil; reflexivity|reflexivity].
  - cbn [for_fold]. unfold bind. rewrite process_file_run.
    destruct (find_file (input_files w) file) as [rows|].
    + destruct rows as [|header rows].
      * eexists. split; reflexivity.
      * destruct (parse_rows unicode_digit rows) as [e|ps].
        -- eexists. split; reflexivity.
        -- destruct (IH (fold_left add_pickup ps data)
                        (emits [Log ("[INFO] Parsing " ++ file); OpenRead file] w))
             as [evs [H1 H2]].
           exists ([Log ("[INFO] Parsing " ++ file); OpenRead file] ++ evs)%list.
           split; [rewrite H1, emits_app; reflexivity|exact H2].
    + eexists. split; reflexivity.
Qed.

Lemma process_data_read_only (w : World) :
  exists evs,
    snd (process_data unicode_digit w) = emits evs w /\
    forallb is_read_event evs = true.
Proof.
  rewrite process_data_run.
  destruct (process_files_read_only (schedule_files w) []
              (emits [Log "[INFO] Parsing City of Toronto Open Data";
                      Glob SCHEDULES_FILE_REGEX] w)) as [evs [H1 H2]].
  eexists. split; [rewrite H1, emits_app; reflexivity|exact H2].
Qed.

Lemma main_cases (w : World) :
  main unicode_digit w =
  match process_data unicode_digit w with
  | (inl e, w1) => (inl e, w1)
  | (inr data, w1) =>
      (inr tt, emits (csv_events data ++
                      ics_events (ics_stamp (emits (csv_events data) w1)) data)%list w1)
  end.
Proof.
  unfold main, bind.
  destruct (process_data unicode_digit w) as [[e|data] w1]; [reflexivity|].
  rewrite write_csv_emits, write_ics_emits, emits_app. reflexivity.
Qed.

Lemma process_data_outcome (w : World) :
  fst (process_data unicode_digit w) =
  match read_all unicode_digit (input_files w) (schedule_files w) with
  | inl e => inl e
  | inr ps => inr (fold_left add_pickup ps [])
  end.
Proof.
  rewrite process_data_run.
  exact (proj1 (process_files_run unicode_digit (schedule_files w) []
                  (emits [Log "[INFO] Parsing City of Toronto Open Data";
                          Glob SCHEDULES_FILE_REGEX] w))).
Qed.

(** X6: where every output file can be opened and written (the
    environment of this development has no failing write), the outcome of
    a run is the outcome of the reading: the run fails with the first
    error met while reading and otherwise succeeds. *)
Theorem run_fails_only_while_reading (w : World) :
  fst (main unicode_digit w) =
  match read_all unicode_digit (input_files w) (schedule_files w) with
  | inl e => inl e
  | inr _ => inr tt
  end.
Proof.
  rewrite main_cases. pose proof (process_data_outcome w) as H.
  destruct (process_data unicode_digit w) as [[e|data] w1]; cbn [fst] in H |- *;
    destruct (read_all unicode_digit (input_files w) (schedule_files w));
    congruence.
Qed.

(** X7: a run that fails on its input has written nothing: whatever it
    did was logging, scanning and opening files to read, no output file
    was opened and the clock was not read. *)
Theorem failed_run_writes_nothing (w : World) (e : PyError) :
  fst (main unicode_digit w) = inl e ->
  exists evs,
    snd (main unicode_digit w) = emits evs w /\
    forallb is_read_event evs = true /\
    opened evs = [].
Proof.
  rewrite main_cases. destruct (process_data_read_only w) as [evs [H1 H2]].
  destruct (process_data unicode_digit w) as [[e'|data] w1]; [|discriminate].
  intros _. cbn [snd] in H1 |- *. exists evs. split; [exact H1|]. split; [exact H2|].
  clear H1. induction evs as [|ev evs IH]; [reflexivity|].
  cbn [forallb] in H2. apply andb_prop in H2. destruct H2 as [Hev H2].
  destruct ev; try discriminate; cbn [opened]; exact (IH H2).
Qed.

(** X8: when no file matches the pattern the run succeeds on an empty
    mapping: it reads nothing and opens no output file; all it does is
    log, scan once and read the clock once. *)
Theorem nothing_to_read (w : World) :
  filter (glob_match "schedules/pickup-schedule-*.csv") (map fst (input_files w)) = [] ->
  process_data unicode_digit w =
    (inr [], emits [ Log "[INFO] Parsing City of Toronto Open Data";
                     Glob "schedules/pickup-schedule-*.csv" ] w) /\
  main unicode_digit w =
    (inr tt,
     emits [ Log "[INFO] Parsing City of Toronto Open Data";
             Glob "schedules/pickup-schedule-*.csv";
             Log "[INFO] Writing CSV calendars";
             Log "[INFO] Finished writing CSV calendars";
             Log "[INFO] Writing ICS calendars";
             Now;
             Log "[INFO] Finished writing ICS calendars" ] w).
Proof.
  intros H.
  assert (P : process_data unicode_digit w =
              (inr [], emits [ Log "[INFO] Parsing City of Toronto Open Data";
                               Glob "schedules/pickup-schedule-*.csv" ] w)).
  { rewrite process_data_run. unfold schedule_files, SCHEDULES_FILE_REGEX.
    rewrite H. reflexivity. }
  split; [exact P|].
  rewrite main_cases, P. rewrite emits_app. reflexivity.
Qed.

(** X9: a matching file without a single line, not even the header, stops
    the run with [StopIteration] when its turn comes: the files before it
    have been read, nothing after it is, and nothing is written. *)
Theorem empty_file_aborts (w : World) (before after : list string) (file : string)
        (ps0 : list Pickup) :
  schedule_files w = (before ++ file :: after)%list ->
  read_all unicode_digit (input_files w) before = inr ps0 ->
  find_file (input_files w) file = Some [] ->
  main unicode_digit w =
    (inl StopIteration, emits (reading_events (before ++ [file])) w).
Proof.
  intros Hfiles Hbefore Hfile.
  rewrite main_cases, process_data_run, Hfiles, for_fold_app.
  unfold bind at 1.
  destruct (process_files_run unicode_digit before []
              (emits [Log "[INFO] Parsing City of Toronto Open Data";
                      Glob SCHEDULES_FILE_REGEX] w)) as [H1 H2].
  change (input_files (emits _ w)) with (input_files w) in H1, H2.
  rewrite Hbefore in H1. specialize (H2 ps0 Hbefore).
  destruct (for_fold before (process_file unicode_digit) [] _) as [r w'].
  cbn [fst snd] in H1, H2. subst r w'.
  cbn [for_fold]. unfold bind at 1. rewrite process_file_run.
  change (input_files (emits _ (emits _ w))) with (input_files w).
  rewrite Hfile, !emits_app. unfold reading_events, parsing_events.
  rewrite flat_map_app. reflexivity.
Qed.

End WholeRun.

(** ** The groups and their order *)

Lemma keys_append (data : dict) (k : string) (p : Pickup) :
  dict_keys (dict_append data k p) =
  if existsb (String.eqb k) (dict_keys data) then dict_keys data
  else (dict_keys data ++ [k])%list.
Proof.
  induction data as [|[k0 v] data IH]; [reflexivity|].
  cbn [dict_append dict_keys map fst existsb].
  rewrite (String.eqb_sym k k0).
  destruct (String.eqb k0 k); [reflexivity|].
  cbn [dict_keys map fst orb]. unfold dict_keys in IH. rewrite IH.
  destruct (existsb (String.eqb k) (map fst data)); reflexivity.
Qed.

Lemma filter_twice {A : Type} (f g : A -> bool) (l : list A) :
  filter f (filter g l) = filter (fun x => g x && f x) l.
Proof.
  induction l as [|x l IH]; [reflexivity|]. cbn [filter].
  destruct (g x); cbn [filter andb]; [destruct (f x)|]; rewrite IH; reflexivity.
Qed.

Lemma grouped_keys_order (ps : list Pickup) (data : dict) :
  dict_keys (fold_left add_pickup ps data) =
  (dict_keys data ++
   filter (fun c => negb (existsb (String.eqb c) (dict_keys data)))
          (first_occurrences (map calendar ps)))%list.
Proof.
  revert data. induction ps as [|p ps IH]; intros data.
  - cbn. rewrite app_nil_r. reflexivity.
  - cbn [fold_left map first_occurrences filter]. rewrite IH.
    unfold add_pickup at 1 2. rewrite keys_append.
    destruct (existsb (String.eqb (calendar p)) (dict_keys data)) eqn:E;
      cbn [negb].
    + f_equal. rewrite filter_twice. apply filter_ext. intros c.
      destruct (String.eqb_spec c (calendar p)) as [->|]; [|reflexivity].
      rewrite E. reflexivity.
    + rewrite <- app_assoc. cbn [app]. do 2 f_equal.
      rewrite filter_twice. apply filter_ext. intros c.
      rewrite existsb_app. cbn [existsb]. rewrite orb_false_r, negb_orb.
      apply andb_comm.
Qed.

Lemma filter_all {A : Type} (l : list A) : filter (fun _ => true) l = l.
Proof. induction l as [|x l IH]; [reflexivity|]. cbn. rewrite IH. reflexivity. Qed.

Lemma append_permutes (data : dict) (k : string) (p : Pickup) :
  Permutation (concat (map snd (dict_append data k p)))
              (concat (map snd data) ++ [p]).
Proof.
  induction data as [|[k0 v] data IH]; [apply Permutation_refl|].
  cbn [dict_append]. destruct (String.eqb k0 k); cbn [map snd concat].
  - rewrite <- !app_assoc. apply Permutation_app_head. apply Permutation_app_comm.
  - rewrite <- app_assoc. apply Permutation_app_head. exact IH.
Qed.

Lemma grouped_permutes (ps : list Pickup) (data : dict) :
  Permutation (concat (map snd (fold_left add_pickup ps data)))
              (concat (map snd data) ++ ps).
Proof.
  revert data. induction ps as [|p ps IH]; intros data; cbn [fold_left].
  - rewrite app_nil_r. apply Permutation_refl.
  - apply perm_trans with (concat (map snd (add_pickup data p)) ++ ps)%list;
      [apply IH|].
    apply perm_trans with ((concat (map snd data) ++ [p]) ++ ps)%list.
    + apply Permutation_app_tail. apply append_permutes.
    + rewrite <- app_assoc. apply Permutation_refl.
Qed.

Lemma groups_in_key_order (data : dict) :
  NoDup (dict_keys data) ->
  flat_map (dict_get data) (dict_keys data) = concat (map snd data).
Proof.
  induction data as [|[k v] data IH]; [reflexivity|].
  cbn [dict_keys map fst snd concat flat_map dict_get].
  intros H. inversion H as [|k' l' Hnot Hnd]; subst.
  rewrite String.eqb_refl. f_equal.
  rewrite <- (IH Hnd). unfold dict_keys.
  rewrite !flat_map_concat_map. f_equal. apply map_ext_in.
  intros c Hc. destruct (String.eqb_spec k c) as [->|]; [contradiction|reflexivity].
Qed.

Lemma append_keeps_groups_filled (data : dict) (k : string) (p : Pickup) :
  Forall (fun kv => snd kv <> []) data ->
  Forall (fun kv => snd kv <> []) (dict_append data k p).
Proof.
  induction data as [|[k0 v] data IH]; intros H; cbn [dict_append].
  - constructor; [discriminate|constructor].
  - inversion H as [|x l Hx Hl]; subst.
    destruct (String.eqb k0 k); constructor; try assumption.
    + cbn [snd]. destruct v; discriminate.
    + exact (IH Hl).
Qed.

Lemma grouped_filled (ps : list Pickup) (data : dict) :
  Forall (fun kv => snd kv <> []) data ->
  Forall (fun kv => snd kv <> []) (fold_left add_pickup ps data).
Proof.
  revert data. induction ps as [|p ps IH]; intros data H; [exact H|].
  apply IH. apply append_keeps_groups_filled. exact H.
Qed.

Lemma filled_get (data : dict) (c : string) :
  Forall (fun kv => snd kv <> []) data -> In c (dict_keys data) -> dict_get data c <> [].
Proof.
  induction data as [|[k v] data IH]; intros H Hin; [destruct Hin|].
  inversion H as [|x l Hx Hl]; subst. cbn [dict_get].
  destruct (String.eqb_spec k c) as [->|Hk]; [exact Hx|].
  destruct Hin as [Hin|Hin]; [contradiction|]. exact (IH Hl Hin).
Qed.

Section Groups.

Variable unicode_digit : string -> option (Z * string).

Lemma process_data_reads (w w' : World) (data : dict) (ps : list Pickup) :
  process_data unicode_digit w = (inr data, w') ->
  read_all unicode_digit (input_files w) (schedule_files w) = inr ps ->
  data = fold_left add_pickup ps [].
Proof.
  intros H R. destruct (process_data_grouped _ _ _ _ H) as [ps' [R' [-> _]]].
  congruence.
Qed.

(** X10: the calendars of the mapping come in the order in which they
    first appear in the input, files in sorted order and rows in file
    order; the two serializers write their files in that order. *)
Theorem calendars_in_order_of_appearance (w w' : World) (data : dict)
        (ps : list Pickup) :
  process_data unicode_digit w = (inr data, w') ->
  read_all unicode_digit (input_files w) (schedule_files w) = inr ps ->
  dict_keys data = first_occurrences (map calendar ps).
Proof.
  intros H R. rewrite (process_data_reads _ _ _ _ H R), grouped_keys_order.
  cbn [dict_keys map existsb negb app]. apply filter_all.
Qed.

(** X11: grouping loses and adds nothing: the groups, one after the other,
    hold exactly the pickups read, each as often as it was read, and no
    group is empty. *)
Theorem groups_hold_what_was_read (w w' : World) (data : dict) (ps : list Pickup) :
  process_data unicode_digit w = (inr data, w') ->
  read_all unicode_digit (input_files w) (schedule_files w) = inr ps ->
  Permutation (flat_map (dict_get data) (dict_keys data)) ps /\
  Forall (fun c => dict_get data c <> []) (dict_keys data).
Proof.
  intros H R. rewrite (process_data_reads _ _ _ _ H R). split.
  - rewrite groups_in_key_order by (apply grouped_NoDup; constructor).
    apply (grouped_permutes ps []).
  - apply Forall_forall. intros c Hc.
    apply filled_get; [|exact Hc]. apply grouped_filled. constructor.
Qed.

End Groups.

(** ** The files written *)

Lemma str_append_inj_r (a b c : string) : a ++ c = b ++ c -> a = b.
Proof.
  revert b. induction a as [|x a IH]; intros [|y b] H; cbn [String.append] in H.
  - reflexivity.
  - exfalso. apply (f_equal String.length) in H.
    cbn [String.length] in H. rewrite str_length_append in H. lia.
  - exfalso. apply (f_equal String.length) in H.
    cbn [String.length] in H. rewrite str_length_append in H. lia.
  - injection H as -> H. rewrite (IH b H). reflexivity.
Qed.

Lemma csv_path_inj (c1 c2 : string) : csv_path c1 = csv_path c2 -> c1 = c2.
Proof.
  unfold csv_path. cbn [String.append]. intros H.
  injection H as H. exact (str_append_inj_r _ _ _ H).
Qed.

Lemma ics_path_inj (c1 c2 : string) : ics_path c1 = ics_path c2 -> c1 = c2.
Proof.
  unfold ics_path. cbn [String.append]. intros H.
  injection H as H. exact (str_append_inj_r _ _ _ H).
Qed.

Lemma csv_path_not_ics (c1 c2 : string) : csv_path c1 <> ics_path c2.
Proof. unfold csv_path, ics_path. cbn [String.append]. discriminate. Qed.

Lemma NoDup_map_inj {A B : Type} (f : A -> B) (l : list A) :
  (forall x y, f x = f y -> x = y) -> NoDup l -> NoDup (map f l).
Proof.
  intros Hf. induction l as [|x l IH]; intros H; [constructor|].
  inversion H as [|x' l' Hnot Hnd]; subst. cbn [map]. constructor; [|exact (IH Hnd)].
  intros Hin. apply in_map_iff in Hin. destruct Hin as [y [Hy Hin]].
  apply Hf in Hy. subst y. contradiction.
Qed.

Lemma NoDup_append {A : Type} (l1 l2 : list A) :
  NoDup l1 -> NoDup l2 -> (forall x, In x l1 -> ~ In x l2) -> NoDup (l1 ++ l2).
Proof.
  induction l1 as [|x l1 IH]; intros H1 H2 H; [exact H2|].
  inversion H1 as [|x' l' Hnot Hnd]; subst. cbn [app]. constructor.
  - intros Hin. apply in_app_or in Hin. destruct Hin as [Hin|Hin];
      [contradiction|]. exact (H x (or_introl eq_refl) Hin).
  - apply IH; [exact Hnd|exact H2|]. intros y Hy. apply H. right. exact Hy.
Qed.

Lemma opened_app (a b : list Event) : opened (a ++ b) = (opened a ++ opened b)%list.
Proof.
  induction a as [|ev a IH]; [reflexivity|].
  destruct ev; cbn [app opened]; rewrite IH; reflexivity.
Qed.

Lemma opened_writes (path : string) (lines : list string) :
  opened (map (Write path) lines) = [].
Proof. induction lines as [|l lines IH]; [reflexivity|exact IH]. Qed.

Lemma opened_read_only (evs : list Event) :
  forallb is_read_event evs = true -> opened evs = [].
Proof.
  induction evs as [|ev evs IH]; [reflexivity|]. cbn [forallb]. intros H.
  apply andb_prop in H. destruct H as [Hev H].
  destruct ev; try discriminate; cbn [opened]; exact (IH H).
Qed.

Lemma opened_csv (data : dict) (keys : list string) :
  opened (flat_map (csv_calendar_events data) keys) = map csv_path keys.
Proof.
  induction keys as [|c keys IH]; [reflexivity|].
  cbn [flat_map map]. rewrite opened_app, IH. unfold csv_calendar_events.
  cbn [app opened].
  rewrite <- (map_map (fun p => csv_row_text (csv_fields p))
                      (Write ("output/csv/" ++ c ++ ".csv"))), opened_writes.
  reflexivity.
Qed.

Lemma opened_ics (stamp : string) (data : dict) (keys : list string) :
  opened (flat_map (ics_calendar_events stamp data) keys) = map ics_path keys.
Proof.
  induction keys as [|c keys IH]; [reflexivity|].
  cbn [flat_map map]. rewrite opened_app, IH. unfold ics_calendar_events.
  cbn [opened]. rewrite opened_writes. reflexivity.
Qed.

(** X12: the interchange serializer writes, for each calendar in the order
    of the mapping, one file [output/ics/<calendar>.ics]: the seven lines
    of the calendar header, the nine lines of an event for each pickup of
    the group in stored order, and the closing line; with files that can
    be opened and written it does not fail. *)
Theorem write_ics_file_structure (data : dict) (w : World) :
  write_ics data w =
  (inr tt,
   emits (Log "[INFO] Writing ICS calendars" :: Now ::
          flat_map
            (fun calendar =>
               Log ("[INFO] Writing " ++ calendar ++ " ICS") ::
               OpenWrite ("output/ics/" ++ calendar ++ ".ics") ::
               map (Write ("output/ics/" ++ calendar ++ ".ics"))
                 (ics_header_lines calendar ++
                  flat_map (ics_event_lines (ics_stamp w) calendar)
                           (dict_get data calendar) ++
                  [ics_footer_line]))
            (dict_keys data) ++
          [Log "[INFO] Finished writing ICS calendars"])%list w).
Proof. exact (write_ics_emits data w). Qed.

Section Outputs.

Variable unicode_digit : string -> option (Z * string).

Lemma main_after_good_reading (w : World) (ps : list Pickup) :
  read_all unicode_digit (input_files w) (schedule_files w) = inr ps ->
  main unicode_digit w =
  (inr tt,
   emits (reading_events (schedule_files w) ++
          csv_events (fold_left add_pickup ps []) ++
          ics_events
            (ics_stamp (emits (reading_events (schedule_files w) ++
                               csv_events (fold_left add_pickup ps []))%list w))
            (fold_left add_pickup ps []))%list w).
Proof.
  intros R. rewrite main_cases, process_data_run.
  destruct (process_files_run unicode_digit (schedule_files w) []
              (emits [Log "[INFO] Parsing City of Toronto Open Data";
                      Glob SCHEDULES_FILE_REGEX] w)) as [H1 H2].
  change (input_files (emits _ w)) with (input_files w) in H1, H2.
  rewrite R in H1. specialize (H2 ps R).
  destruct (for_fold (schedule_files w) (process_file unicode_digit) [] _) as [r w1].
  cbn [fst snd] in H1, H2. subst r w1.
  rewrite !emits_app. reflexivity.
Qed.

(** X13: a run whose reading succeeds is the reading, then the whole
    tabular pass, then the whole interchange pass, whose clock is read
    once the tabular files are written; with files that can be opened and
    written it returns normally. *)
Theorem successful_run (w : World) (ps : list Pickup) :
  read_all unicode_digit (input_files w) (schedule_files w) = inr ps ->
  main unicode_digit w =
  (inr tt,
   emits (reading_events (schedule_files w) ++
          csv_events (fold_left add_pickup ps []) ++
          ics_events
            (ics_stamp (emits (reading_events (schedule_files w) ++
                               csv_events (fold_left add_pickup ps []))%list w))
            (fold_left add_pickup ps []))%list w).
Proof. exact (main_after_good_reading w ps). Qed.

(** X14: a run that succeeds opens each output file once: first the
    tabular file of every calendar, then the interchange file of every
    calendar, in the order in which the calendars first appear in the
    input; no path is opened twice. *)
Theorem each_output_opened_once (w : World) (ps : list Pickup) :
  read_all unicode_digit (input_files w) (schedule_files w) = inr ps ->
  exists evs,
    snd (main unicode_digit w) = emits evs w /\
    opened evs =
      (map csv_path (first_occurrences (map calendar ps)) ++
       map ics_path (first_occurrences (map calendar ps)))%list /\
    NoDup (opened evs).
Proof.
  intros R. rewrite (main_after_good_reading w ps R). eexists. split; [reflexivity|].
  assert (K : dict_keys (fold_left add_pickup ps []) =
              first_occurrences (map calendar ps)).
  { rewrite grouped_keys_order. cbn [dict_keys map existsb negb app].
    apply filter_all. }
  assert (O : opened (reading_events (schedule_files w) ++
                      csv_events (fold_left add_pickup ps []) ++
                      ics_events
                        (ics_stamp
                           (emits (reading_events (schedule_files w) ++
                                   csv_events (fold_left add_pickup ps []))%list w))
                        (fold_left add_pickup ps []))%list =
              (map csv_path (first_occurrences (map calendar ps)) ++
               map ics_path (first_occurrences (map calendar ps)))%list).
  { unfold reading_events, csv_events, ics_events.
    rewrite !opened_app. cbn [opened app].
    rewrite (opened_read_only _ (parsing_events_read (schedule_files w))).
    rewrite opened_app, opened_csv, opened_ics, K. cbn [opened app].
    rewrite !app_nil_r. reflexivity. }
  split; [exact O|]. rewrite O.
  assert (N : NoDup (first_occurrences (map calendar ps))).
  { rewrite <- K. apply grouped_NoDup. constructor. }
  apply NoDup_append.
  - apply NoDup_map_inj; [exact csv_path_inj|exact N].
  - apply NoDup_map_inj; [exact ics_path_inj|exact N].
  - intros x H1 H2. apply in_map_iff in H1. apply in_map_iff in H2.
    destruct H1 as [c1 [<- _]]. destruct H2 as [c2 [E _]].
    exact (csv_path_not_ics c1 c2 (eq_sym E)).
Qed.

End Outputs.

(** ** What a UID tells *)








Section UidConverse.

Variable unicode_digit : string -> option (Z * string).





End UidConverse.

(** Before the year 1000 the same line comes from two different pickups:
    1 January 202 in calendar 1North and 11 October 2020 in calendar
    North. *)
Example uid_cut_two_ways :
  nth_error (ics_event_lines "20240102T123045" "1North"
               (mk_Pickup "1North" (mk_datetime 202 1 1 0 0 0)
                  false true false false false)) 5 =
  nth_error (ics_event_lines "20240102T123045" "North"
               (mk_Pickup "North" (mk_datetime 2020 10 11 0 0 0)
                  false true false false false)) 5.
Proof. reflexivity. Qed.

(** ** The order of the directory scan *)

Lemma lexicographic_refl (a : string) : lexicographic a a.
Proof. unfold lexicographic, String.leb. rewrite string_compare_refl. reflexivity. Qed.

Lemma ordered_unique (l1 l2 : list string) :
  StronglySorted lexicographic l1 -> StronglySorted lexicographic l2 ->
  Permutation l1 l2 -> l1 = l2.
Proof.
  revert l2. induction l1 as [|x l1 IH]; intros l2 S1 S2 P.
  - apply Permutation_nil in P. subst. reflexivity.
  - destruct l2 as [|y l2]; [apply Permutation_sym, Permutation_nil in P; discriminate|].
    inversion S1 as [|x' l1' S1' F1]; subst.
    inversion S2 as [|y' l2' S2' F2]; subst.
    rewrite Forall_forall in F1, F2.
    assert (Hxy : lexicographic x y).
    { assert (Hin : In y (x :: l1))
        by (apply (Permutation_in y (Permutation_sym P)); left; reflexivity).
      destruct Hin as [<-|Hin]; [apply lexicographic_refl|exact (F1 y Hin)]. }
    assert (Hyx : lexicographic y x).
    { assert (Hin : In x (y :: l2)) by (apply (Permutation_in x P); left; reflexivity).
      destruct Hin as [<-|Hin]; [apply lexicographic_refl|exact (F2 x Hin)]. }
    assert (E : x = y) by (apply String.leb_antisym; assumption). subst y.
    f_equal. apply IH; [assumption|assumption|].
    exact (Permutation_cons_inv P).
Qed.

Lemma sorted_of_permutation (l1 l2 : list string) :
  Permutation l1 l2 -> sorted l1 = sorted l2.
Proof.
  intros P. apply ordered_unique; try apply sorted_ordered.
  apply perm_trans with l1; [apply Permutation_sym, sorted_perm|].
  apply perm_trans with l2; [exact P|apply sorted_perm].
Qed.

Lemma filter_permutation {A : Type} (f : A -> bool) (l1 l2 : list A) :
  Permutation l1 l2 -> Permutation (filter f l1) (filter f l2).
Proof.
  induction 1 as [|x l l' P IH|x y l|l l' l'' P1 IH1 P2 IH2]; cbn [filter].
  - constructor.
  - destruct (f x); [apply perm_skip|]; exact IH.
  - destruct (f x), (f y); try apply Permutation_refl. apply perm_swap.
  - exact (perm_trans IH1 IH2).
Qed.

Lemma find_file_permutation (f1 f2 : list (string * list (list string))) :
  Permutation f1 f2 -> NoDup (map fst f1) ->
  forall path, find_file f1 path = find_file f2 path.
Proof.
  induction 1 as [|[p rows] l l' P IH|[p rows] [q rows'] l|l l' l'' P1 IH1 P2 IH2];
    intros N path.
  - reflexivity.
  - cbn [find_file]. inversion N; subst. rewrite IH by assumption. reflexivity.
  - cbn [find_file]. cbn [map fst] in N. inversion N as [|a b Hnot N']; subst.
    destruct (String.eqb_spec q path) as [->|]; [|reflexivity].
    destruct (String.eqb_spec p path) as [->|]; [|reflexivity].
    exfalso. apply Hnot. left. reflexivity.
  - rewrite IH1 by assumption. apply IH2.
    exact (Permutation_NoDup (Permutation_map fst P1) N).
Qed.

Section ScanOrder.

Variable unicode_digit : string -> option (Z * string).

Lemma process_files_same (paths : list string) (data : dict) (w1 w2 : World) :
  (forall path, find_file (input_files w1) path = find_file (input_files w2) path) ->
  trace w1 = trace w2 ->
  fst (for_fold paths (process_file unicode_digit) data w1) =
  fst (for_fold paths (process_file unicode_digit) data w2) /\
  trace (snd (for_fold paths (process_file unicode_digit) data w1)) =
  trace (snd (for_fold paths (process_file unicode_digit) data w2)).
Proof.
  revert data w1 w2. induction paths as [|file paths IH]; intros data w1 w2 F T.
  - split; [reflexivity|exact T].
  - cbn [for_fold]. unfold bind. rewrite !process_file_run, (F file).
    destruct (find_file (input_files w2) file) as [rows|].
    + destruct rows as [|header rows].
      * split; [reflexivity|]. cbn [snd emits trace]. rewrite T. reflexivity.
      * destruct (parse_rows unicode_digit rows) as [e|ps].
        -- split; [reflexivity|]. cbn [snd emits trace]. rewrite T. reflexivity.
        -- apply IH; [exact F|]. cbn [emits trace]. rewrite T. reflexivity.
    + split; [reflexivity|]. cbn [snd emits trace]. rewrite T. reflexivity.
Qed.

(** X16: the order in which the directory scan meets the files decides
    nothing: two runs on trees that hold the same files, started at the
    same time, end alike and log, read and write the same things in the
    same order. *)
Theorem scan_order_is_immaterial (w1 w2 : World) :
  Permutation (input_files w1) (input_files w2) ->
  NoDup (map fst (input_files w1)) ->
  wall_clock w1 = wall_clock w2 ->
  trace w1 = trace w2 ->
  schedule_files w1 = schedule_files w2 /\
  fst (main unicode_digit w1) = fst (main unicode_digit w2) /\
  trace (snd (main unicode_digit w1)) = trace (snd (main unicode_digit w2)).
Proof.
  intros P N C T.
  assert (S : schedule_files w1 = schedule_files w2).
  { unfold schedule_files. apply sorted_of_permutation.
    apply filter_permutation. apply Permutation_map. exact P. }
  split; [exact S|].
  pose proof (find_file_permutation _ _ P N) as F.
  rewrite !main_cases, !process_data_run, S.
  destruct (process_files_same (schedule_files w2) []
              (emits [Log "[INFO] Parsing City of Toronto Open Data";
                      Glob SCHEDULES_FILE_REGEX] w1)
              (emits [Log "[INFO] Parsing City of Toronto Open Data";
                      Glob SCHEDULES_FILE_REGEX] w2) F
              ltac:(cbn [emits trace]; rewrite T; reflexivity)) as [H1 H2].
  destruct (process_files_read_only unicode_digit (schedule_files w2) []
              (emits [Log "[INFO] Parsing City of Toronto Open Data";
                      Glob SCHEDULES_FILE_REGEX] w1)) as [e1 [W1 _]].
  destruct (process_files_read_only unicode_digit (schedule_files w2) []
              (emits [Log "[INFO] Parsing City of Toronto Open Data";
                      Glob SCHEDULES_FILE_REGEX] w2)) as [e2 [W2 _]].
  destruct (for_fold (schedule_files w2) (process_file unicode_digit) []
              (emits _ w1)) as [r1 v1].
  destruct (for_fold (schedule_files w2) (process_file unicode_digit) []
              (emits _ w2)) as [r2 v2].
  cbn [fst snd] in H1, H2, W1, W2. subst r2.
  destruct r1 as [e|data]; [split; [reflexivity|exact H2]|].
  split; [reflexivity|].
  cbn [snd emits trace]. unfold ics_stamp. cbn [emits trace wall_clock].
  rewrite H2. subst v1 v2. cbn [emits wall_clock]. rewrite C. reflexivity.
Qed.

End ScanOrder.

(** ** Which files are schedules *)

Lemma glob_star_unfold (pattern path : string) :
  glob_match (String "*" pattern) path =
  glob_match pattern path ||
  match path with
  | "" => false
  | String a path' => negb (Ascii.eqb a "/") && glob_match (String "*" pattern) path'
  end.
Proof. destruct path; reflexivity. Qed.

Lemma glob_literal (l path : string) :
  has_char "*" l = false -> (glob_match l path = true <-> path = l).
Proof.
  revert path. induction l as [|c l IH]; intros path H.
  - destruct path; cbn [glob_match]; split; intros E; congruence.
  - cbn [has_char] in H. apply orb_false_elim in H. destruct H as [Hc Hl].
    cbn [glob_match]. rewrite Hc. destruct path as [|a path].
    + split; discriminate.
    + split.
      * intros E. apply andb_prop in E. destruct E as [E1 E2].
        apply Ascii.eqb_eq in E1. apply (IH path Hl) in E2. congruence.
      * intros [= -> ->]. rewrite Ascii.eqb_refl. apply (IH l Hl). reflexivity.
Qed.

Lemma glob_literal_prefix (l pattern path : string) :
  has_char "*" l = false ->
  (glob_match (l ++ pattern) path = true <->
   exists rest, path = l ++ rest /\ glob_match pattern rest = true).
Proof.
  revert path. induction l as [|c l IH]; intros path H.
  - cbn [String.append]. split; [eauto|]. intros [rest [-> E]]. exact E.
  - cbn [has_char] in H. apply orb_false_elim in H. destruct H as [Hc Hl].
    cbn [String.append glob_match]. rewrite Hc. destruct path as [|a path].
    + split; [discriminate|]. intros [rest [E _]]. discriminate.
    + split.
      * intros E. apply andb_prop in E. destruct E as [E1 E2].
        apply Ascii.eqb_eq in E1. apply (IH path Hl) in E2.
        destruct E2 as [rest [-> E2]]. exists rest. split; [congruence|exact E2].
      * intros [rest [[= -> ->] E]]. rewrite Ascii.eqb_refl.
        apply (IH (l ++ rest) Hl). eauto.
Qed.

Lemma glob_star_then_literal (l path : string) :
  has_char "*" l = false ->
  (glob_match (String "*" l) path = true <->
   exists x, path = x ++ l /\ has_char "/" x = false).
Proof.
  intros H. split.
  - induction path as [|a path IH]; rewrite glob_star_unfold; intros E.
    + rewrite orb_false_r in E. apply (glob_literal l "" H) in E.
      exists "". split; [exact E|reflexivity].
    + apply orb_prop in E. destruct E as [E|E].
      * apply (glob_literal l _ H) in E. exists "". split; [exact E|reflexivity].
      * apply andb_prop in E. destruct E as [E1 E2].
        destruct (IH E2) as [x [-> Hx]]. exists (String a x).
        split; [reflexivity|]. cbn [has_char]. rewrite Hx.
        destruct (Ascii.eqb a "/"); [discriminate|reflexivity].
  - intros [x [-> Hx]]. induction x as [|a x IH]; rewrite glob_star_unfold.
    + cbn [String.append]. rewrite (proj2 (glob_literal l l H) eq_refl). reflexivity.
    + cbn [has_char] in Hx. apply orb_false_elim in Hx. destruct Hx as [Ha Hx].
      cbn [String.append]. rewrite Ha, (IH Hx). cbn [negb andb]. apply orb_true_r.
Qed.

(** X17: the files read are those named [pickup-schedule-<anything>.csv]
    directly in [schedules/]: [<anything>] may be empty but holds no [/],
    so nothing deeper in the tree and nothing outside that directory is
    taken. *)
Theorem schedule_pattern (path : string) :
  glob_match SCHEDULES_FILE_REGEX path = true <->
  exists x,
    path = "schedules/pickup-schedule-" ++ x ++ ".csv" /\ has_char "/" x = false.
Proof.
  change SCHEDULES_FILE_REGEX
    with ("schedules/pickup-schedule-" ++ String "*" ".csv").
  rewrite (glob_literal_prefix "schedules/pickup-schedule-" (String "*" ".csv") path
             eq_refl).
  split.
  - intros [rest [-> E]]. apply (glob_star_then_literal ".csv" rest eq_refl) in E.
    destruct E as [x [-> Hx]]. eauto.
  - intros [x [-> Hx]]. exists (x ++ ".csv"). split; [reflexivity|].
    apply (glob_star_then_literal ".csv" _ eq_refl). eauto.
Qed.

(** ** The texts tell the flags *)

(** X18: the description tells all five flags, and nothing else: two
    pickups have the same description exactly when they are collected
    alike. *)
Theorem description_tells_flags (p q : Pickup) :
  description p = description q <->
  green_bin p = green_bin q /\ garbage p = garbage q /\
  recycling p = recycling q /\ yard_waste p = yard_waste q /\
  christmas_tree p = christmas_tree q.
Proof.
  destruct p as [c1 d1 gb1 g1 r1 y1 x1], q as [c2 d2 gb2 g2 r2 y2 x2].
  cbn [green_bin garbage recycling yard_waste christmas_tree].
  split.
  - destruct gb1, g1, r1, y1, x1, gb2, g2, r2, y2, x2;
      intros H; first [discriminate H | repeat split; reflexivity].
  - intros [-> [-> [-> [-> ->]]]]. reflexivity.
Qed.

(** X19: the subject tells the four flags it shows, and only those: two
    pickups have the same subject exactly when they agree on christmas
    tree, yard waste, recycling and garbage. *)
Theorem subject_tells_flags (p q : Pickup) :
  subject p = subject q <->
  christmas_tree p = christmas_tree q /\ yard_waste p = yard_waste q /\
  recycling p = recycling q /\ garbage p = garbage q.
Proof.
  destruct p as [c1 d1 gb1 g1 r1 y1 x1], q as [c2 d2 gb2 g2 r2 y2 x2].
  cbn [green_bin garbage recycling yard_waste christmas_tree].
  split.
  - destruct g1, r1, y1, x1, g2, r2, y2, x2;
      intros H; first [discriminate H | repeat split; reflexivity].
  - intros [-> [-> [-> ->]]]. reflexivity.
Qed.

(** ** Dates without leading zeros *)

Section ShortDates.

Variable unicode_digit : string -> option (Z * string).

Lemma day_cases (d : Z) :
  1 <= d <= 31 ->
  d = 1 \/ d = 2 \/ d = 3 \/ d = 4 \/ d = 5 \/ d = 6 \/ d = 7 \/ d = 8 \/ d = 9 \/
  d = 10 \/ d = 11 \/ d = 12 \/ d = 13 \/ d = 14 \/ d = 15 \/ d = 16 \/ d = 17 \/
  d = 18 \/ d = 19 \/ d = 20 \/ d = 21 \/ d = 22 \/ d = 23 \/ d = 24 \/ d = 25 \/
  d = 26 \/ d = 27 \/ d = 28 \/ d = 29 \/ d = 30 \/ d = 31.
Proof. lia. Qed.

Lemma month_cases (m : Z) :
  1 <= m <= 12 ->
  m = 1 \/ m = 2 \/ m = 3 \/ m = 4 \/ m = 5 \/ m = 6 \/ m = 7 \/ m = 8 \/ m = 9 \/
  m = 10 \/ m = 11 \/ m = 12.
Proof. lia. Qed.

Lemma short_day_then_dash (d : Z) (items : list re_item) (s : string)
      (found : list (ascii * Z)) (rest : string) :
  1 <= d <= 31 ->
  re_match unicode_digit items (String "-" s) = Some (found, rest) ->
  re_match unicode_digit (day_group :: items) (short_number d ++ String "-" s) =
  Some (("d"%char, d) :: found, rest).
Proof.
  intros Hd H. pose proof (day_cases d Hd) as C. unfold day_group.
  repeat (destruct C as [C|C]; [subst d; simpl; rewrite H; reflexivity|]).
  subst d; simpl; rewrite H; reflexivity.
Qed.

Lemma short_day_at_end (d : Z) :
  1 <= d <= 31 ->
  re_match unicode_digit [day_group] (short_number d) = Some ([("d"%char, d)], "").
Proof.
  intros Hd. pose proof (day_cases d Hd) as C.
  repeat (destruct C as [C|C]; [subst d; reflexivity|]).
  subst d; reflexivity.
Qed.

Lemma short_month_then_dash (m : Z) (items : list re_item) (s : string)
      (found : list (ascii * Z)) (rest : string) :
  1 <= m <= 12 ->
  re_match unicode_digit items (String "-" s) = Some (found, rest) ->
  re_match unicode_digit (month_group :: items) (short_number m ++ String "-" s) =
  Some (("m"%char, m) :: found, rest).
Proof.
  intros Hm H. pose proof (month_cases m Hm) as C. unfold month_group.
  repeat (destruct C as [C|C]; [subst m; simpl; rewrite H; reflexivity|]).
  subst m; simpl; rewrite H; reflexivity.
Qed.

Lemma day_first_on_year (y : Z) (s : string) :
  0 <= y <= 9999 ->
  re_match unicode_digit day_first_pattern (zero_pad 4 y ++ s) = None.
Proof.
  intros Hy. rewrite zero_pad_4. cbn [String.append].
  pose proof (Z.mod_pos_bound (y / 1000) 10 ltac:(lia)).
  pose proof (Z.mod_pos_bound (y / 100) 10 ltac:(lia)).
  pose proof (Z.mod_pos_bound (y / 10) 10 ltac:(lia)).
  apply day_first_rejects_three_digits; lia.
Qed.

(** X20: the leading zero of the day and of the month is optional in both
    formats: 1-6-2024 and 2024-6-1 are 1 June 2024.  The year needs its
    four digits. *)
Theorem leading_zeros_optional (y m d : Z) :
  valid_date y m d = true ->
  parse_date unicode_digit
    (short_number d ++ "-" ++ short_number m ++ "-" ++ zero_pad 4 y) =
    inr (mk_datetime y m d 0 0 0) /\
  parse_date unicode_digit
    (zero_pad 4 y ++ "-" ++ short_number m ++ "-" ++ short_number d) =
    inr (mk_datetime y m d 0 0 0).
Proof.
  intros V. destruct (valid_date_bounds y m d V) as [Hy [Hm Hd]].
  split; rewrite parse_date_cases; unfold strptime;
    rewrite (proj1 formats_compile), ?(proj2 formats_compile).
  - unfold day_first_pattern. cbn [String.append].
    rewrite (short_day_then_dash d _ _ [("m"%char, m); ("Y"%char, y)] "" Hd).
    + cbn [String.eqb negb found_get Ascii.eqb Bool.eqb]. rewrite V. reflexivity.
    + rewrite re_match_literal.
      apply (short_month_then_dash m _ _ [("Y"%char, y)] "" Hm).
      rewrite re_match_literal. rewrite <- (str_append_nil_r (zero_pad 4 y)).
      apply (re_match_year unicode_digit y [] "" [] "" ltac:(lia)). reflexivity.
  - rewrite day_first_on_year by lia.
    unfold year_first_pattern, year_group.
    rewrite (re_match_year unicode_digit y _ _ [("m"%char, m); ("d"%char, d)] ""
               ltac:(lia)).
    + cbn [String.eqb negb found_get Ascii.eqb Bool.eqb]. rewrite V. reflexivity.
    + cbn [String.append]. rewrite re_match_literal.
      apply (short_month_then_dash m _ _ [("d"%char, d)] "" Hm).
      rewrite re_match_literal. apply short_day_at_end. exact Hd.
Qed.

End ShortDates.

(** ** More theorems at work *)

Lemma parse_date_both_spellings_witness :
  valid_date 2024 2 29 = true /\
  parse_date ascii_digits_only "29-02-2024" = inr (mk_datetime 2024 2 29 0 0 0) /\
  parse_date ascii_digits_only "2024-02-29" = inr (mk_datetime 2024 2 29 0 0 0).
Proof.
  split; [reflexivity|].
  exact (parse_date_both_spellings ascii_digits_only 2024 2 29 eq_refl).
Defined.

Lemma parse_date_real_day_witness :
  1 <= 2024 <= 9999 /\ 1 <= 2 <= 12 /\ 1 <= 29 <= days_in_month 2024 2 /\
  0 = 0 /\ 0 = 0 /\ 0 = 0.
Proof.
  exact (parse_date_real_day ascii_digits_only "29-02-2024"
           (mk_datetime 2024 2 29 0 0 0) eq_refl).
Defined.

Lemma impossible_date_refused_witness :
  parse_date ascii_digits_only "29-02-2023" =
    inl (ValueError "Date 29-02-2023 does not match any known format.") /\
  parse_date ascii_digits_only "2023-02-29" =
    inl (ValueError "Date 2023-02-29 does not match any known format.").
Proof.
  exact (impossible_date_refused ascii_digits_only 2023 2 29
           ltac:(lia) ltac:(lia) ltac:(lia) eq_refl).
Defined.

Lemma trailing_text_refused_witness :
  parse_date ascii_digits_only "15-03-2024T00:00" =
    inl (ValueError "Date 15-03-2024T00:00 does not match any known format.") /\
  parse_date ascii_digits_only "2024-03-15T00:00" =
    inl (ValueError "Date 2024-03-15T00:00 does not match any known format.").
Proof.
  exact (trailing_text_refused ascii_digits_only 2024 3 15 "T00:00" eq_refl
           ltac:(discriminate)).
Defined.

Lemma leading_zeros_optional_witness :
  parse_date ascii_digits_only "1-6-2024" = inr (mk_datetime 2024 6 1 0 0 0) /\
  parse_date ascii_digits_only "2024-6-1" = inr (mk_datetime 2024 6 1 0 0 0).
Proof.
  exact (leading_zeros_optional ascii_digits_only 2024 6 1 eq_refl).
Defined.

Lemma failed_run_writes_nothing_witness :
  exists evs,
    snd (main ascii_digits_only bad_at_line_3) = emits evs bad_at_line_3 /\
    forallb is_read_event evs = true /\
    opened evs = [].
Proof.
  exact (failed_run_writes_nothing ascii_digits_only bad_at_line_3
           (ValueError "Date 2024/03/15 does not match any known format.") eq_refl).
Defined.

Lemma nothing_to_read_witness :
  process_data ascii_digits_only no_schedule_world =
    (inr [], emits [ Log "[INFO] Parsing City of Toronto Open Data";
                     Glob "schedules/pickup-schedule-*.csv" ] no_schedule_world) /\
  main ascii_digits_only no_schedule_world =
    (inr tt,
     emits [ Log "[INFO] Parsing City of Toronto Open Data";
             Glob "schedules/pickup-schedule-*.csv";
             Log "[INFO] Writing CSV calendars";
             Log "[INFO] Finished writing CSV calendars";
             Log "[INFO] Writing ICS calendars";
             Now;
             Log "[INFO] Finished writing ICS calendars" ] no_schedule_world).
Proof.
  exact (nothing_to_read ascii_digits_only no_schedule_world eq_refl).
Defined.

Lemma empty_file_aborts_witness :
  main ascii_digits_only empty_file_world =
    (inl StopIteration,
     emits (reading_events [ "schedules/pickup-schedule-A.csv";
                             "schedules/pickup-schedule-B.csv" ]) empty_file_world).
Proof.
  exact (empty_file_aborts ascii_digits_only empty_file_world
           ["schedules/pickup-schedule-A.csv"] [] "schedules/pickup-schedule-B.csv"
           [mk_Pickup "North" (mk_datetime 2024 3 8 0 0 0) false true false false false]
           eq_refl eq_refl eq_refl).
Defined.

Lemma calendars_in_order_of_appearance_witness :
  dict_keys small_data = first_occurrences (map calendar small_pickups).
Proof.
  exact (calendars_in_order_of_appearance ascii_digits_only small_world
           (snd (process_data ascii_digits_only small_world))
           small_data small_pickups eq_refl eq_refl).
Defined.

Lemma groups_hold_what_was_read_witness :
  Permutation (flat_map (dict_get small_data) (dict_keys small_data)) small_pickups /\
  Forall (fun c => dict_get small_data c <> []) (dict_keys small_data).
Proof.
  exact (groups_hold_what_was_read ascii_digits_only small_world
           (snd (process_data ascii_digits_only small_world))
           small_data small_pickups eq_refl eq_refl).
Defined.

Lemma successful_run_witness :
  main ascii_digits_only small_world =
  (inr tt,
   emits (reading_events (schedule_files small_world) ++
          csv_events (fold_left add_pickup small_pickups []) ++
          ics_events
            (ics_stamp (emits (reading_events (schedule_files small_world) ++
                               csv_events (fold_left add_pickup small_pickups []))%list
                          small_world))
            (fold_left add_pickup small_pickups []))%list small_world).
Proof.
  exact (successful_run ascii_digits_only small_world small_pickups eq_refl).
Defined.

Lemma each_output_opened_once_witness :
  exists evs,
    snd (main ascii_digits_only small_world) = emits evs small_world /\
    opened evs =
      [ "output/csv/North.csv"; "output/csv/South.csv";
        "output/ics/North.ics"; "output/ics/South.ics" ] /\
    NoDup (opened evs).
Proof.
  exact (each_output_opened_once ascii_digits_only small_world small_pickups eq_refl).
Defined.


Lemma scan_order_is_immaterial_witness :
  schedule_files small_world = schedule_files small_world_rescanned /\
  fst (main ascii_digits_only small_world) =
    fst (main ascii_digits_only small_world_rescanned) /\
  trace (snd (main ascii_digits_only small_world)) =
    trace (snd (main ascii_digits_only small_world_rescanned)).
Proof.
  apply (scan_order_is_immaterial ascii_digits_only small_world small_world_rescanned).
  - cbn [input_files small_world small_world_rescanned].
    eapply perm_trans; [apply perm_skip; apply perm_swap|]. apply perm_swap.
  - cbn [input_files small_world map fst].
    repeat constructor; cbn [In]; intuition discriminate.
  - reflexivity.
  - reflexivity.
Defined.
